(** * Git push orchestrator ([main.py]): model and properties

    The handler [github_push] sequences five step functions
    ([check_git_config], [clone_repository], [stage_changes],
    [commit_changes], [push_changes]).  Every step shells out through
    [terminal.execute] and touches the file system through [os].

    The model below keeps the Python text recognisable:
    - Python [str] is [string], a character being a code point below 256;
      the string methods used by the program ([split], [replace], [strip],
      [in], [startswith], [endswith]) are written out;
    - Python dictionaries built by the steps are association lists in
      insertion order over a small universe of Python values;
    - the terminal and the file system are an environment of oracles over an
      abstract world; a step is a computation in a state-and-exception monad
      that also records, in order, every command line handed to the terminal
      and every [os.chdir] / [os.makedirs] call;
    - the program is written twice: first over machines on which a call
      returns or raises an instance of [Exception] and [os.getcwd()]
      answers, then (module [Async]) over machines on which a call can
      also be left by an exception outside [Exception], as a cancelled
      task is, and on which [os.getcwd()] can raise.  The two agree where
      both apply ([github_push_agrees]). *)

From Stdlib Require Import String Ascii List ZArith Bool Lia.
Import ListNotations.

Local Open Scope string_scope.
Local Open Scope Z_scope.
Local Open Scope list_scope.

(** String concatenation ([+] on [str], and the pieces of an f-string). *)
Notation "a +++ b" := (String.append a b) (at level 60, right associativity).

(* ================================================================== *)
(** ** Python strings *)
(* ================================================================== *)

Module PyStr.

(** The double quote character, which occurs in the commit command line. *)
Definition dquote : string := String (ascii_of_nat 34) EmptyString.

(** Truth value of a [str]: the empty string is falsy. *)
Definition nonempty (s : string) : bool :=
  match s with
  | EmptyString => false
  | String _ _ => true
  end.

(** [s.startswith(p)]. *)
Definition startswith (s p : string) : bool := String.prefix p s.

(** Reverse of a string, used for the operations working from the right. *)
Fixpoint rev_onto (s acc : string) : string :=
  match s with
  | EmptyString => acc
  | String c s' => rev_onto s' (String c acc)
  end.

Definition rev (s : string) : string := rev_onto s EmptyString.

(** [s.endswith(p)]. *)
Definition endswith (s p : string) : bool := String.prefix (rev p) (rev s).

(** [needle in hay]: [needle] occurs as a contiguous substring. *)
Fixpoint contains (needle hay : string) : bool :=
  String.prefix needle hay ||
  match hay with
  | EmptyString => false
  | String _ hay' => contains needle hay'
  end.

(** [s.split(sep)] for a one-character separator.  The result is never
    empty: a string without separator is returned as its only segment. *)
Fixpoint split (sep : ascii) (s : string) : list string :=
  match s with
  | EmptyString => [EmptyString]
  | String c s' =>
      if Ascii.eqb c sep then EmptyString :: split sep s'
      else match split sep s' with
           | [] => [String c EmptyString]
           | seg :: rest => String c seg :: rest
           end
  end.

(** [l[-1]] on the (non-empty) result of [split]. *)
Definition last_segment (l : list string) : string := List.last l EmptyString.

(** [s.replace(old, new)] for a non-empty [old]: scanning from the left,
    every non-overlapping occurrence of [old] is replaced by [new].
    [skip] counts the characters of a matched occurrence still to be
    dropped. *)
Fixpoint replace_from (skip : nat) (old new s : string) : string :=
  match s with
  | EmptyString => EmptyString
  | String c s' =>
      match skip with
      | S k => replace_from k old new s'
      | O =>
          if String.prefix old s
          then new +++ replace_from (Nat.pred (String.length old)) old new s'
          else String c (replace_from O old new s')
      end
  end.

Definition replace (old new s : string) : string := replace_from O old new s.

(** [str.isspace] on the code points below 256: tab, line feed, vertical
    tab, form feed, carriage return, the four separators 28-31, the space,
    next line (U+0085) and the no-break space (U+00A0). *)
Definition is_space (c : ascii) : bool :=
  let n := nat_of_ascii c in
  ((9 <=? n)%nat && (n <=? 13)%nat) || ((28 <=? n)%nat && (n <=? 32)%nat)
  || (n =? 133)%nat || (n =? 160)%nat.

Fixpoint lstrip (s : string) : string :=
  match s with
  | EmptyString => EmptyString
  | String c s' => if is_space c then lstrip s' else s
  end.

Fixpoint rstrip (s : string) : string :=
  match s with
  | EmptyString => EmptyString
  | String c s' =>
      let r := rstrip s' in
      if is_space c && negb (nonempty r) then EmptyString else String c r
  end.

(** [s.strip()]. *)
Definition strip (s : string) : string := rstrip (lstrip s).

(** [s.removesuffix(suf)]: [s] without one trailing [suf], if it has one.
    The program does not call it; it states what removing a trailing
    suffix means. *)
Definition removesuffix (s suf : string) : string :=
  if endswith s suf
  then rev (String.substring (String.length suf)
              (String.length s - String.length suf) (rev s))
  else s.

(** [os.path.join(a, b)] of [posixpath], for two components. *)
Definition path_join (a b : string) : string :=
  if startswith b "/" then b
  else if negb (nonempty a) || endswith a "/" then a +++ b
  else a +++ "/" +++ b.

End PyStr.

(** The repository name as both [github_push] (line 52) and
    [clone_repository] (line 170) compute it:
    [repo_url.split("/")[-1].replace(".git", "")]. *)
Definition derive_repo_name (repo_url : string) : string :=
  PyStr.replace ".git" "" (PyStr.last_segment (PyStr.split "/" repo_url)).

(** The last ['/']-separated segment of the URL. *)
Definition url_last_segment (repo_url : string) : string :=
  PyStr.last_segment (PyStr.split "/" repo_url).

(* ================================================================== *)
(** ** Python values and dictionaries *)
(* ================================================================== *)

(** The values stored in the result dictionaries of the steps. *)
#[local] Set Warnings "-register-all".

Inductive value : Type :=
| VNone
| VBool (b : bool)
| VStr (s : string)
| VList (l : list value)
| VDict (d : list (string * value)).

(** A dictionary literal, in insertion order. *)
Definition dict : Type := list (string * value).

(** Python truth value ([bool(v)], [if v], [not v]). *)
Definition truthy (v : value) : bool :=
  match v with
  | VNone => false
  | VBool b => b
  | VStr s => PyStr.nonempty s
  | VList l => match l with [] => false | _ :: _ => true end
  | VDict d => match d with [] => false | _ :: _ => true end
  end.

(** [a and b]: [a] when [a] is falsy, otherwise [b]. *)
Definition py_and (a b : value) : value := if truthy a then b else a.

(** [d.get(k)]: first binding of [k], if any. *)
Fixpoint lookup (k : string) (d : dict) : option value :=
  match d with
  | [] => None
  | (k', v) :: d' => if String.eqb k k' then Some v else lookup k d'
  end.

(** The keys of a dictionary, in order. *)
Definition keys (d : dict) : list string := map fst d.

(** [x if c else None] for a string [x]. *)
Definition str_or_none (c : bool) (x : string) : value :=
  if c then VStr x else VNone.

(* ================================================================== *)
(** ** The terminal and the file system *)
(* ================================================================== *)

(** What [terminal.execute] returns. *)
Record ProcResult : Type := mkProc {
  returncode : Z;
  stdout : string;
  stderr : string
}.

(** A raised instance of [Exception], identified with [str(e)]. *)
Definition Exn : Type := string.

(** The calls a step makes to its collaborators, as recorded by the model. *)
Inductive Event : Type :=
| EvExecute (cmd : string)
| EvChdir (path : string)
| EvMakedirs (path : string).

(** The collaborators, on a machine where nothing interrupts a run and the
    working directory exists.  Each oracle sees and updates the world; the
    ones that can raise return [inl] with the message of the [Exception].
    [os.path.exists] and [os.getcwd] only read the world.  [Async.Env]
    below is the machine on which a call can also be left by an exception
    that is no [Exception], and on which [os.getcwd] can raise. *)
Record Env (World : Type) : Type := mkEnv {
  run_command : string -> World -> World * (Exn + ProcResult);
  fs_exists : string -> World -> bool;
  fs_makedirs : string -> World -> World * (Exn + unit);
  fs_chdir : string -> World -> World * (Exn + unit);
  fs_getcwd : World -> string
}.

Arguments mkEnv {World} _ _ _ _ _.
Arguments run_command {World} _ _ _.
Arguments fs_exists {World} _ _ _.
Arguments fs_makedirs {World} _ _ _.
Arguments fs_chdir {World} _ _ _.
Arguments fs_getcwd {World} _ _.

(** The state threaded through a request: the world and the calls made so
    far, oldest first. *)
Record State (World : Type) : Type := mkState {
  world : World;
  trace : list Event
}.

Arguments mkState {World} _ _.
Arguments world {World} _.
Arguments trace {World} _.

(** ** The monad of steps *)

(** A computation either returns a value or raises, and updates the state
    in both cases. *)
Definition M (World A : Type) : Type := State World -> State World * (Exn + A).

Definition ret {World A : Type} (a : A) : M World A := fun st => (st, inr a).

Definition raise {World A : Type} (e : Exn) : M World A := fun st => (st, inl e).

Definition bind {World A B : Type} (m : M World A) (k : A -> M World B)
  : M World B :=
  fun st =>
    match m st with
    | (st', inr a) => k a st'
    | (st', inl e) => (st', inl e)
    end.

(** [try: body  except Exception as e: handler(str(e))], where whatever is
    raised is an instance of [Exception]; [Async.try_except] has the
    exceptions that pass through such a clause. *)
Definition try_except {World A : Type} (body : M World A)
  (handler : Exn -> M World A) : M World A :=
  fun st =>
    match body st with
    | (st', inr a) => (st', inr a)
    | (st', inl e) => handler e st'
    end.

Notation "x <- m ;; k" := (bind m (fun x => k))
  (at level 61, m at next level, right associativity).
Notation "m ;;; k" := (bind m (fun _ => k))
  (at level 61, right associativity).

(** [d[k]]: raises [KeyError] when [k] is missing. *)
Definition getitem {World : Type} (k : string) (d : dict) : M World value :=
  match lookup k d with
  | Some v => ret v
  | None => raise ("'" +++ k +++ "'")
  end.

(** A value read back from a dictionary and used as a path.  The handler
    does this once, with [clone_result["repo_path"]] after a successful
    clone step, where the entry is always a [str]; the other branch is the
    [TypeError] of [os.chdir] and is never taken. *)
Definition as_path {World : Type} (v : value) : M World string :=
  match v with
  | VStr s => ret s
  | _ => raise "expected str, bytes or os.PathLike object"
  end.

Section Steps.

Context {World : Type} (env : Env World).

(** [await terminal.execute(cmd)]. *)
Definition terminal_execute (cmd : string) : M World ProcResult :=
  fun st =>
    let (w, r) := run_command env cmd (world st) in
    (mkState w (trace st ++ [EvExecute cmd]), r).

(** [os.chdir(path)]. *)
Definition os_chdir (path : string) : M World unit :=
  fun st =>
    let (w, r) := fs_chdir env path (world st) in
    (mkState w (trace st ++ [EvChdir path]), r).

(** [os.makedirs(path)]. *)
Definition os_makedirs (path : string) : M World unit :=
  fun st =>
    let (w, r) := fs_makedirs env path (world st) in
    (mkState w (trace st ++ [EvMakedirs path]), r).

(** [os.path.exists(path)]. *)
Definition os_path_exists (path : string) : M World bool :=
  fun st => (st, inr (fs_exists env path (world st))).

(** [os.getcwd()], in a working directory that exists;
    [Async.os_getcwd] is the call that can raise. *)
Definition os_getcwd : M World string :=
  fun st => (st, inr (fs_getcwd env (world st))).

(** The dictionary every step returns from its [except] clause. *)
Definition step_failure (e : Exn) : dict :=
  [("success", VBool false); ("error", VStr e)].

(** The dictionary [check_git_config] returns from its [except] clause. *)
Definition config_failure (e : Exn) : dict :=
  [("is_configured", VBool false); ("git_installed", VBool false);
   ("error", VStr e)].

(** [result.returncode == 0]. *)
Definition exit_ok (r : ProcResult) : bool := returncode r =? 0.

(** [result.stderr if result.returncode != 0 else None]. *)
Definition stderr_if_failed (r : ProcResult) : value :=
  str_or_none (negb (exit_ok r)) (stderr r).

(** *** check_git_config (lines 129-160) *)

(** [x.stdout.strip() if x.returncode == 0 else None]. *)
Definition config_value (r : ProcResult) : value :=
  str_or_none (exit_ok r) (PyStr.strip (stdout r)).

Definition check_git_config_body : M World dict :=
  result <- terminal_execute "git --version" ;;
  if negb (exit_ok result) then
    ret [("is_configured", VBool false); ("git_installed", VBool false);
         ("error", VStr "Git is not installed")]
  else
    username_result <- terminal_execute "git config user.name" ;;
    let username := config_value username_result in
    email_result <- terminal_execute "git config user.email" ;;
    let email := config_value email_result in
    ret [("is_configured", VBool (truthy (py_and username email)));
         ("git_installed", VBool true);
         ("username", username);
         ("email", email)].

Definition check_git_config : M World dict :=
  try_except check_git_config_body (fun e => ret (config_failure e)).

(** *** clone_repository (lines 162-201) *)

(** Lines 165-167: the target directory is created when it is missing. *)
Definition ensure_directory (directory : string) : M World unit :=
  dir_exists <- os_path_exists directory ;;
  if negb dir_exists then os_makedirs directory else ret tt.

Definition clone_repository_body (repo_url directory : string) : M World dict :=
  ensure_directory directory ;;;
  let repo_name := derive_repo_name repo_url in
  let repo_path := PyStr.path_join directory repo_name in
  repo_exists <- os_path_exists repo_path ;;
  if repo_exists then
    os_chdir repo_path ;;;
    pull_result <- terminal_execute "git pull" ;;
    ret [("success", VBool (exit_ok pull_result));
         ("action", VStr "pulled");
         ("repo_path", VStr repo_path);
         ("output", VStr (stdout pull_result));
         ("error", stderr_if_failed pull_result)]
  else
    os_chdir directory ;;;
    clone_result <- terminal_execute ("git clone " +++ repo_url) ;;
    ret [("success", VBool (exit_ok clone_result));
         ("action", VStr "cloned");
         ("repo_path", VStr repo_path);
         ("output", VStr (stdout clone_result));
         ("error", stderr_if_failed clone_result)].

Definition clone_repository (repo_url directory : string) : M World dict :=
  try_except (clone_repository_body repo_url directory)
             (fun e => ret (step_failure e)).

(** *** stage_changes (lines 203-243) *)

(** One entry of [results] (lines 216-221). *)
Definition file_result (file : string) (result : ProcResult) : value :=
  VDict [("file", VStr file);
         ("success", VBool (exit_ok result));
         ("output", VStr (stdout result));
         ("error", stderr_if_failed result)].

(** The [for file in specific_files] loop: one [git add] per file, each
    entry appended to [results]. *)
Fixpoint add_each (files : list string) (results : list value)
  : M World (list value) :=
  match files with
  | [] => ret results
  | file :: files' =>
      result <- terminal_execute ("git add " +++ file) ;;
      add_each files' (results ++ [file_result file result])
  end.

(** [r["success"]] of one entry of [results]. *)
Definition entry_success (r : value) : bool :=
  match r with
  | VDict d => match lookup "success" d with
               | Some v => truthy v
               | None => false
               end
  | _ => false
  end.

Definition stage_changes_body (repo_path : string)
  (specific_files : option (list string)) : M World dict :=
  os_chdir repo_path ;;;
  status_before <- terminal_execute "git status" ;;
  match specific_files with
  | Some (f :: fs) =>
      results <- add_each (f :: fs) [] ;;
      let success := forallb entry_success results in
      ret [("success", VBool success);
           ("action", VStr "staged_specific_files");
           ("files", VList (map VStr (f :: fs)));
           ("results", VList results)]
  | _ =>
      result <- terminal_execute "git add ." ;;
      ret [("success", VBool (exit_ok result));
           ("action", VStr "staged_all");
           ("output", VStr (stdout result));
           ("error", stderr_if_failed result)]
  end.

Definition stage_changes (repo_path : string)
  (specific_files : option (list string)) : M World dict :=
  try_except (stage_changes_body repo_path specific_files)
             (fun e => ret (step_failure e)).

(** *** commit_changes (lines 245-273) *)

Definition nothing_marker : string := "nothing to commit".

(** The command line of line 260. *)
Definition commit_command (commit_message : string) : string :=
  "git commit -m " +++ PyStr.dquote +++ commit_message +++ PyStr.dquote.

Definition no_changes_result : dict :=
  [("success", VBool true);
   ("action", VStr "no_changes");
   ("message", VStr "No changes to commit")].

Definition commit_changes_body (repo_path commit_message : string)
  : M World dict :=
  os_chdir repo_path ;;;
  status_result <- terminal_execute "git status" ;;
  if PyStr.contains nothing_marker (stdout status_result) then
    ret no_changes_result
  else
    result <- terminal_execute (commit_command commit_message) ;;
    ret [("success", VBool (exit_ok result));
         ("action", VStr "committed");
         ("commit_message", VStr commit_message);
         ("output", VStr (stdout result));
         ("error", stderr_if_failed result)].

Definition commit_changes (repo_path commit_message : string) : M World dict :=
  try_except (commit_changes_body repo_path commit_message)
             (fun e => ret (step_failure e)).

(** *** push_changes (lines 275-294) *)

Definition push_changes_body (repo_path branch_name : string) : M World dict :=
  os_chdir repo_path ;;;
  result <- terminal_execute ("git push origin " +++ branch_name) ;;
  ret [("success", VBool (exit_ok result));
       ("action", VStr "pushed");
       ("branch", VStr branch_name);
       ("output", VStr (stdout result));
       ("error", stderr_if_failed result)].

Definition push_changes (repo_path branch_name : string) : M World dict :=
  try_except (push_changes_body repo_path branch_name)
             (fun e => ret (step_failure e)).

End Steps.

(* ================================================================== *)
(** ** The handler *)
(* ================================================================== *)

(** The JSON body of a request, with the fields [github_push] reads.  A
    field is [None] when its key is missing ([repo_url] also when it is
    [null]: [data.get("repo_url")] gives [None] in both cases); a field
    that is present has the type the handler's docstring gives it. *)
Record Request : Type := mkRequest {
  req_repo_url : option string;
  req_clone_directory : option string;
  req_commit_message : option string;
  req_branch_name : option string;
  req_specific_files : option (list string)
}.

Record Response : Type := mkResponse {
  status : Z;
  body : dict
}.

(** [data.get(key, default)]. *)
Definition get_default {A : Type} (field : option A) (default : A) : A :=
  match field with
  | Some a => a
  | None => default
  end.

(** The body of a 400 response (lines 42-49, 58-65, 71-78, 83-90, 95-102). *)
Definition failure_body (message : string) (details : dict) : dict :=
  [("success", VBool false);
   ("message", VStr message);
   ("details", VDict details)].

(** The body of the 200 response (lines 106-116). *)
Definition success_body (repo_url : option string) (branch_name : string)
  (git_config : dict) (clone : value) (stage commit push : dict) : dict :=
  [("success", VBool true);
   ("message",
    VStr ("Successfully pushed changes to "
          +++ (match repo_url with
               | Some u => if PyStr.nonempty u then u else "repository"
               | None => "repository"
               end)
          +++ " on branch " +++ branch_name));
   ("details",
    VDict [("git_config", VDict git_config);
           ("clone", clone);
           ("stage", VDict stage);
           ("commit", VDict commit);
           ("push", VDict push)])].

(** The body of the 500 response (lines 120-127). *)
Definition error_body (e : Exn) : dict :=
  [("success", VBool false);
   ("message", VStr ("An error occurred: " +++ e));
   ("error", VStr e)].

(** [repo_url] as a truth value: [None] and the empty string are falsy. *)
Definition url_given (repo_url : option string) : option string :=
  match repo_url with
  | Some u => if PyStr.nonempty u then Some u else None
  | None => None
  end.

Section Handler.

Context {World : Type} (env : Env World).

(** Steps 3 to 5 (lines 68-117), entered with the repository path and with
    what the report shows under ["clone"]. *)
Definition stage_commit_push (repo_url : option string)
  (commit_message branch_name : string)
  (specific_files : option (list string))
  (git_config : dict) (clone : value) (repo_path : string) : M World Response :=
  stage_result <- stage_changes env repo_path specific_files ;;
  stage_ok <- getitem "success" stage_result ;;
  if negb (truthy stage_ok) then
    ret (mkResponse 400 (failure_body "Failed to stage changes" stage_result))
  else
    commit_result <- commit_changes env repo_path commit_message ;;
    commit_ok <- getitem "success" commit_result ;;
    if negb (truthy commit_ok) then
      ret (mkResponse 400
             (failure_body "Failed to commit changes" commit_result))
    else
      push_result <- push_changes env repo_path branch_name ;;
      push_ok <- getitem "success" push_result ;;
      if negb (truthy push_ok) then
        ret (mkResponse 400
               (failure_body "Failed to push changes" push_result))
      else
        ret (mkResponse 200
               (success_body repo_url branch_name git_config clone
                  stage_result commit_result push_result)).

(** The [try] block of [github_push] (lines 31-117). *)
Definition github_push_body (request : Request) : M World Response :=
  let repo_url := req_repo_url request in
  cwd <- os_getcwd env ;;
  let clone_directory := get_default (req_clone_directory request) cwd in
  let commit_message :=
    get_default (req_commit_message request) "Automated commit via MCP agent" in
  let branch_name := get_default (req_branch_name request) "main" in
  let specific_files := req_specific_files request in
  git_config <- check_git_config env ;;
  is_configured <- getitem "is_configured" git_config ;;
  if negb (truthy is_configured) then
    ret (mkResponse 400
           (failure_body
              "Git is not properly configured. Please configure Git first."
              git_config))
  else
    let repo_name := option_map derive_repo_name (url_given repo_url) in
    let repo_path :=
      match repo_name with
      | Some n => if PyStr.nonempty n
                  then PyStr.path_join clone_directory n
                  else clone_directory
      | None => clone_directory
      end in
    match url_given repo_url with
    | Some url =>
        clone_result <- clone_repository env url clone_directory ;;
        clone_ok <- getitem "success" clone_result ;;
        if negb (truthy clone_ok) then
          ret (mkResponse 400
                 (failure_body "Failed to clone repository" clone_result))
        else
          cloned_path <- getitem "repo_path" clone_result ;;
          repo_path' <- as_path cloned_path ;;
          stage_commit_push repo_url commit_message branch_name
            specific_files git_config (VDict clone_result) repo_path'
    | None =>
        stage_commit_push repo_url commit_message branch_name
          specific_files git_config (VStr "Skipped") repo_path
    end.

(** [github_push] (lines 17-127): any exception of the body becomes a 500
    response. *)
Definition github_push (request : Request) : M World Response :=
  try_except (github_push_body request)
             (fun e => ret (mkResponse 500 (error_body e))).

End Handler.

(* ================================================================== *)
(** ** Vocabulary of the properties *)
(* ================================================================== *)

(** The command lines of the configuration check. *)
Definition config_commands : list string :=
  ["git --version"; "git config user.name"; "git config user.email"].


(** What [git config user.X] answers when the value is unset (non-zero exit
    status) or empty (blank output). *)
Definition unset_or_empty (r : ProcResult) : bool :=
  negb (returncode r =? 0) || negb (PyStr.nonempty (PyStr.strip (stdout r))).

(** An event that belongs to the clone-or-pull step: creating the target
    directory, [git pull], or a [git clone] command line. *)
Definition clone_or_pull_event (ev : Event) : bool :=
  match ev with
  | EvExecute cmd => String.eqb cmd "git pull" || PyStr.startswith cmd "git clone"
  | EvMakedirs _ => true
  | EvChdir _ => false
  end.

(** The events of a request handled without [repo_url]: the configuration
    check, then staging, committing and pushing inside [dir]. *)
Definition direct_event (dir commit_message branch_name : string)
  (specific_files : option (list string)) (ev : Event) : Prop :=
  match ev with
  | EvChdir path => path = dir
  | EvMakedirs _ => False
  | EvExecute cmd =>
      In cmd config_commands
      \/ cmd = "git status"
      \/ cmd = "git add ."
      \/ (exists file, In file (get_default specific_files [])
                       /\ cmd = "git add " +++ file)
      \/ cmd = commit_command commit_message
      \/ cmd = "git push origin " +++ branch_name
  end.

(** [string occurs in value], through lists and dictionaries. *)
Fixpoint mentions (s : string) (v : value) : bool :=
  match v with
  | VStr t => PyStr.contains s t
  | VList l => existsb (mentions s) l
  | VDict d => existsb (fun kv => mentions s (snd kv)) d
  | _ => false
  end.

(** The entries [stage_changes] records for [files] when their adds return
    the results [rs]. *)
Definition file_results (files : list string) (rs : list ProcResult)
  : list value :=
  map (fun fr => file_result (fst fr) (snd fr)) (combine files rs).

(** What the report of a response shows under ["clone"]. *)
Definition reported_clone (response : Response) : option value :=
  match lookup "details" (body response) with
  | Some (VDict details) => lookup "clone" details
  | _ => None
  end.

(** The key lists of the dictionaries [stage_changes] builds: for specific
    files, for stage-all, and in its [except] clause. *)
Definition stage_result_keys : list (list string) :=
  [["success"; "action"; "files"; "results"];
   ["success"; "action"; "output"; "error"];
   ["success"; "error"]].

Section Vocabulary.

Context {World : Type} (env : Env World).

(** The outcomes of [git add file], for each file in order, whether or not
    an earlier one failed or raised. *)
Fixpoint add_outcomes (files : list string) (w : World)
  : World * list (Exn + ProcResult) :=
  match files with
  | [] => (w, [])
  | file :: files' =>
      let (w1, r) := run_command env ("git add " +++ file) w in
      let (w2, rs) := add_outcomes files' w1 in
      (w2, r :: rs)
  end.




(** A computation that, from every state, terminates having appended only
    events satisfying [P] and, when it returns normally, a value satisfying
    [Q]. *)
Definition emits {A : Type} (P : Event -> Prop) (Q : A -> Prop)
  (m : M World A) : Prop :=
  forall st, exists st' r evs,
    m st = (st', r)
    /\ trace st' = trace st ++ evs
    /\ Forall P evs
    /\ (forall a, r = inr a -> Q a).

(** The second of two consecutive [commit_changes] calls reports
    ["no_changes"] as a success. *)
Definition second_commit_no_changes (repo_path commit_message : string)
  (st : State World) : Prop :=
  exists st2 d,
    commit_changes env repo_path commit_message
      (fst (commit_changes env repo_path commit_message st)) = (st2, inr d)
    /\ lookup "success" d = Some (VBool true)
    /\ lookup "action" d = Some (VStr "no_changes").

(** The status snapshot taken by [stage_changes] appears somewhere in the
    dictionary it returns. *)
Definition snapshot_in_result (repo_path : string)
  (specific_files : option (list string)) (st : State World) : Prop :=
  forall w1 w2 snapshot st' d,
    fs_chdir env repo_path (world st) = (w1, inr tt) ->
    run_command env "git status" w1 = (w2, inr snapshot) ->
    stage_changes env repo_path specific_files st = (st', inr d) ->
    mentions (stdout snapshot) (VDict d) = true.

(** The environment in which the result of every [git status] is passed
    through [f]; everything else, the successor world included, is as
    in [env]. *)
Definition with_status (f : ProcResult -> ProcResult) : Env World :=
  mkEnv
    (fun cmd w =>
       if String.eqb cmd "git status" then
         match run_command env cmd w with
         | (w', inr p) => (w', inr (f p))
         | (w', inl e) => (w', inl e)
         end
       else run_command env cmd w)
    (fs_exists env) (fs_makedirs env) (fs_chdir env) (fs_getcwd env).

End Vocabulary.

(* ================================================================== *)
(** ** A small simulation of git and of the file system *)
(* ================================================================== *)

(** A concrete environment on which the properties are exercised: one
    repository, a set of existing directories, and git answering the way
    the command-line tool does. *)
Module Sim.

Record world : Type := mkWorld {
  cwd : string;
  paths : list string;
  user_name : option string;
  user_email : option string;
  untracked : list string;
  staged : list string
}.

Definition mem (x : string) (l : list string) : bool :=
  existsb (String.eqb x) l.

Definition nl : string := String (ascii_of_nat 10) EmptyString.

Definition ok (out : string) : Exn + ProcResult := inr (mkProc 0 out "").

Definition failed (code : Z) (err : string) : Exn + ProcResult :=
  inr (mkProc code "" err).

(** The text after a command prefix of [n] characters. *)
Definition argument (n : nat) (cmd : string) : string :=
  String.substring n (String.length cmd - n) cmd.

Definition config_answer (v : option string) : Exn + ProcResult :=
  match v with
  | Some s => ok (s +++ nl)
  | None => failed 1 ""
  end.

(** What [git status] prints, by the state of the index and work tree. *)
Definition status_text (w : world) : string :=
  match staged w, untracked w with
  | _ :: _, _ => "On branch main" +++ nl +++ "Changes to be committed:"
  | [], _ :: _ =>
      "On branch main" +++ nl +++ "Untracked files:" +++ nl
      +++ "nothing added to commit but untracked files present"
  | [], [] =>
      "On branch main" +++ nl +++ "nothing to commit, working tree clean"
  end.

Definition set_index (w : world) (u s : list string) : world :=
  mkWorld (cwd w) (paths w) (user_name w) (user_email w) u s.

Definition set_paths (w : world) (c : string) (p : list string) : world :=
  mkWorld c p (user_name w) (user_email w) (untracked w) (staged w).

Definition git_add (file : string) (w : world) : world * (Exn + ProcResult) :=
  if mem file (untracked w) then
    (set_index w (filter (fun f => negb (String.eqb f file)) (untracked w))
       (staged w ++ [file]), ok "")
  else if mem file (staged w) then (w, ok "")
  else (w, failed 128
             ("fatal: pathspec '" +++ file +++ "' did not match any files")).

Definition git_commit (w : world) : world * (Exn + ProcResult) :=
  match staged w with
  | _ :: _ => (set_index w (untracked w) [], ok "1 file changed")
  | [] => (w, inr (mkProc 1 (status_text w) ""))
  end.

Definition git_clone (url : string) (w : world) : world * (Exn + ProcResult) :=
  let target :=
    PyStr.path_join (cwd w) (PyStr.removesuffix (url_last_segment url) ".git") in
  if mem target (paths w) then
    (w, failed 128 "fatal: destination path already exists")
  else (set_paths w (cwd w) (paths w ++ [target]), ok "").

Definition execute (cmd : string) (w : world) : world * (Exn + ProcResult) :=
  if String.eqb cmd "git --version" then (w, ok "git version 2.43.0")
  else if String.eqb cmd "git config user.name" then
    (w, config_answer (user_name w))
  else if String.eqb cmd "git config user.email" then
    (w, config_answer (user_email w))
  else if String.eqb cmd "git status" then (w, ok (status_text w))
  else if String.eqb cmd "git add ." then
    (set_index w [] (staged w ++ untracked w), ok "")
  else if PyStr.startswith cmd "git add " then git_add (argument 8 cmd) w
  else if PyStr.startswith cmd "git commit -m " then git_commit w
  else if PyStr.startswith cmd "git push origin " then (w, ok "")
  else if String.eqb cmd "git pull" then (w, ok "Already up to date.")
  else if PyStr.startswith cmd "git clone " then git_clone (argument 10 cmd) w
  else (w, failed 127 "command not found").

Definition chdir (path : string) (w : world) : world * (Exn + unit) :=
  if mem path (paths w) then (set_paths w path (paths w), inr tt)
  else (w, inl ("[Errno 2] No such file or directory: '" +++ path +++ "'")).

Definition makedirs (path : string) (w : world) : world * (Exn + unit) :=
  if mem path (paths w) then
    (w, inl ("[Errno 17] File exists: '" +++ path +++ "'"))
  else (set_paths w (cwd w) (paths w ++ [path]), inr tt).

Definition env : Env world :=
  mkEnv execute (fun path w => mem path (paths w)) makedirs chdir cwd.

(** A configured user in [/work], where the repository [/work/app] has one
    staged and one untracked file. *)
Definition busy : world :=
  mkWorld "/work" ["/work"; "/work/app"]
    (Some "Ada") (Some "ada@example.com") ["notes.txt"] ["a.py"].

(** The same repository with a clean index and work tree. *)
Definition clean : world :=
  mkWorld "/work" ["/work"; "/work/app"]
    (Some "Ada") (Some "ada@example.com") [] [].

(** [/work/app] with [a.py] modified and nothing staged. *)
Definition edited : world :=
  mkWorld "/work" ["/work"; "/work/app"]
    (Some "Ada") (Some "ada@example.com") ["a.py"] [].


(** A machine with an empty [/work]. *)
Definition fresh : world :=
  mkWorld "/work" ["/work"] (Some "Ada") (Some "ada@example.com") [] [].

Definition start (w : world) : State world := mkState w [].

End Sim.

(* ================================================================== *)
(** ** Vocabulary of the further properties *)
(* ================================================================== *)

(** The command line of line 281. *)
Definition push_command (branch_name : string) : string :=
  "git push origin " +++ branch_name.

(** The pipeline step whose work an event does: 2 for the clone step
    ([os.makedirs], [git pull], [git clone]), 3 for [git add], 4 for
    [git commit], 5 for [git push]; 0 for what every step may do
    ([os.chdir], [git status], the configuration queries). *)
Definition step_rank (ev : Event) : nat :=
  match ev with
  | EvChdir _ => 0
  | EvMakedirs _ => 2
  | EvExecute cmd =>
      if PyStr.startswith cmd "git push" then 5
      else if PyStr.startswith cmd "git commit" then 4
      else if PyStr.startswith cmd "git add" then 3
      else if String.eqb cmd "git pull" || PyStr.startswith cmd "git clone"
      then 2
      else 0
  end%nat.

(** The step a response reports: 5 for the 200 report and for a failed
    push, otherwise the step named by the message of the 400 response
    (1 for the configuration check). *)
Definition response_rank (response : Response) : nat :=
  (if (status response =? 200)%Z then 5
   else
     match lookup "message" (body response) with
     | Some (VStr message) =>
         if String.eqb message
              "Git is not properly configured. Please configure Git first."
         then 1
         else if String.eqb message "Failed to clone repository" then 2
         else if String.eqb message "Failed to stage changes" then 3
         else if String.eqb message "Failed to commit changes" then 4
         else 5
     | _ => 5
     end)%nat.

(** The directory in which the handler stages, commits and pushes: the
    path of the clone step when the request has a URL, [clone_directory]
    otherwise ([cwd] standing for the default of [clone_directory]). *)
Definition handler_repo_path (request : Request) (cwd : string) : string :=
  let clone_directory := get_default (req_clone_directory request) cwd in
  match url_given (req_repo_url request) with
  | Some url => PyStr.path_join clone_directory (derive_repo_name url)
  | None => clone_directory
  end.

(** An event that stays inside [clone_directory] and the repository path:
    directories are entered only there, and only [clone_directory] is
    created. *)
Definition stays_inside (clone_directory repo_path : string) (ev : Event)
  : Prop :=
  match ev with
  | EvChdir path => path = clone_directory \/ path = repo_path
  | EvMakedirs path => path = clone_directory
  | EvExecute _ => True
  end.

(** An event of a step up to number [n] that stays inside. *)
Definition bounded (n : nat) (clone_directory repo_path : string)
  (ev : Event) : Prop :=
  (step_rank ev <= n)%nat /\ stays_inside clone_directory repo_path ev.

(** What a response must look like whatever happened: status 200 or 400
    with a matching ["success"] flag; no call of a step later than the one
    reported, and none that leaves [clone_directory] and [repo_path]; a
    push into [repo_path] as the last two calls of a 200. *)
Definition handled (clone_directory repo_path branch_name : string)
  (evs : list Event) (response : Response) : Prop :=
  (status response = 200 \/ status response = 400)
  /\ lookup "success" (body response)
     = Some (VBool (status response =? 200))
  /\ Forall (bounded (response_rank response) clone_directory repo_path) evs
  /\ (status response = 200 ->
      exists evs0,
        evs = evs0 ++ [EvChdir repo_path;
                       EvExecute (push_command branch_name)]).

Section FurtherVocabulary.

Context {World : Type} (env : Env World).

(** A computation that, from every state, returns normally, the events it
    appended and its value being related by [R]. *)
Definition yields {A : Type} (R : list Event -> A -> Prop) (m : M World A)
  : Prop :=
  forall st, exists st' a evs,
    m st = (st', inr a)
    /\ trace st' = trace st ++ evs
    /\ R evs a.

(** The adds of [files] up to the first one that raises: the world and the
    message of that exception, with the files tried before it; [None] when
    no add raises. *)
Fixpoint first_raising_add (files : list string) (w : World)
  : option (World * Exn * list string) :=
  match files with
  | [] => None
  | file :: files' =>
      match run_command env ("git add " +++ file) w with
      | (w1, inl e) => Some (w1, e, [file])
      | (w1, inr _) =>
          match first_raising_add files' w1 with
          | Some (w2, e, tried) => Some (w2, e, file :: tried)
          | None => None
          end
      end
  end.

End FurtherVocabulary.

(** More machines for the simulation, on which something goes wrong. *)
Module Faulty.

(** A machine without git: every command line fails in the shell. *)
Definition no_git : Env Sim.world :=
  mkEnv (fun _ w => (w, Sim.failed 127 "git: command not found"))
    (fs_exists Sim.env) (fs_makedirs Sim.env) (fs_chdir Sim.env)
    (fs_getcwd Sim.env).

(** A terminal that is lost when asked to run [bad]: [terminal.execute]
    raises there and behaves like the simulation elsewhere. *)
Definition losing (bad : string) : Env Sim.world :=
  mkEnv
    (fun cmd w =>
       if String.eqb cmd bad then (w, inl "terminal closed")
       else run_command Sim.env cmd w)
    (fs_exists Sim.env) (fs_makedirs Sim.env) (fs_chdir Sim.env)
    (fs_getcwd Sim.env).

(** A file system on which no directory can be created. *)
Definition read_only : Env Sim.world :=
  mkEnv (run_command Sim.env) (fs_exists Sim.env)
    (fun path w => (w, inl ("[Errno 13] Permission denied: '" +++ path +++ "'")))
    (fs_chdir Sim.env) (fs_getcwd Sim.env).

(** [/work/app] with two modified files and nothing staged. *)
Definition two_edits : Sim.world :=
  Sim.mkWorld "/work" ["/work"; "/work/app"]
    (Some "Ada") (Some "ada@example.com") ["a.py"; "b.py"] [].

End Faulty.

(* ================================================================== *)
(** ** Interruptions, and a working directory that is gone *)
(* ================================================================== *)

(** Every [except] clause of the program is [except Exception].  An
    exception that is not an instance of [Exception]
    ([asyncio.CancelledError] when the task is cancelled at an [await],
    [KeyboardInterrupt], [SystemExit]) passes through such a clause; and
    [os.getcwd()] raises when the working directory has been removed.
    The environments above have neither: their calls return or raise an
    [Exception], and [fs_getcwd] always answers.  The module below writes
    the program again over environments that have both.  The two models
    agree wherever both apply ([github_push_agrees] and the lemmas before
    it), so what is proved over the environments above holds of every run
    in which nothing interrupts and [os.getcwd()] returns. *)
Module Async.

#[local] Set Warnings "-notation-overridden".

(** How a call, or a computation, ends: it returns, it raises an instance
    of [Exception] (identified with [str(e)]), or it is interrupted by an
    exception that is not an instance of [Exception]. *)
Inductive Outcome (A : Type) : Type :=
| Returned (a : A)
| Raised (e : Exn)
| Interrupted (e : Exn).

Arguments Returned {A} _.
Arguments Raised {A} _.
Arguments Interrupted {A} _.

(** The collaborators.  [os.path.exists] never raises. *)
Record Env (World : Type) : Type := mkEnv {
  run_command : string -> World -> World * Outcome ProcResult;
  fs_exists : string -> World -> bool;
  fs_makedirs : string -> World -> World * Outcome unit;
  fs_chdir : string -> World -> World * Outcome unit;
  fs_getcwd : World -> Outcome string
}.

Arguments mkEnv {World} _ _ _ _ _.
Arguments run_command {World} _ _ _.
Arguments fs_exists {World} _ _ _.
Arguments fs_makedirs {World} _ _ _.
Arguments fs_chdir {World} _ _ _.
Arguments fs_getcwd {World} _ _.

Definition M (World A : Type) : Type :=
  State World -> State World * Outcome A.

Definition ret {World A : Type} (a : A) : M World A :=
  fun st => (st, Returned a).

Definition raise {World A : Type} (e : Exn) : M World A :=
  fun st => (st, Raised e).

Definition bind {World A B : Type} (m : M World A) (k : A -> M World B)
  : M World B :=
  fun st =>
    match m st with
    | (st', Returned a) => k a st'
    | (st', Raised e) => (st', Raised e)
    | (st', Interrupted e) => (st', Interrupted e)
    end.

(** [try: body  except Exception as e: handler(str(e))]: an interruption is
    not an [Exception] and leaves the [try] statement as it came. *)
Definition try_except {World A : Type} (body : M World A)
  (handler : Exn -> M World A) : M World A :=
  fun st =>
    match body st with
    | (st', Returned a) => (st', Returned a)
    | (st', Raised e) => handler e st'
    | (st', Interrupted e) => (st', Interrupted e)
    end.

Notation "x <- m ;; k" := (bind m (fun x => k))
  (at level 61, m at next level, right associativity).
Notation "m ;;; k" := (bind m (fun _ => k))
  (at level 61, right associativity).

(** [d[k]]: raises [KeyError] when [k] is missing. *)
Definition getitem {World : Type} (k : string) (d : dict) : M World value :=
  match lookup k d with
  | Some v => ret v
  | None => raise ("'" +++ k +++ "'")
  end.

(** A value read back from a dictionary and used as a path. *)
Definition as_path {World : Type} (v : value) : M World string :=
  match v with
  | VStr s => ret s
  | _ => raise "expected str, bytes or os.PathLike object"
  end.

Section Steps.

Context {World : Type} (env : Env World).

(** [await terminal.execute(cmd)]. *)
Definition terminal_execute (cmd : string) : M World ProcResult :=
  fun st =>
    let (w, r) := run_command env cmd (world st) in
    (mkState w (trace st ++ [EvExecute cmd]), r).

(** [os.chdir(path)]. *)
Definition os_chdir (path : string) : M World unit :=
  fun st =>
    let (w, r) := fs_chdir env path (world st) in
    (mkState w (trace st ++ [EvChdir path]), r).

(** [os.makedirs(path)]. *)
Definition os_makedirs (path : string) : M World unit :=
  fun st =>
    let (w, r) := fs_makedirs env path (world st) in
    (mkState w (trace st ++ [EvMakedirs path]), r).

(** [os.path.exists(path)]. *)
Definition os_path_exists (path : string) : M World bool :=
  fun st => (st, Returned (fs_exists env path (world st))).

(** [os.getcwd()]. *)
Definition os_getcwd : M World string :=
  fun st => (st, fs_getcwd env (world st)).

(** *** check_git_config (lines 129-160) *)

Definition check_git_config_body : M World dict :=
  result <- terminal_execute "git --version" ;;
  if negb (exit_ok result) then
    ret [("is_configured", VBool false); ("git_installed", VBool false);
         ("error", VStr "Git is not installed")]
  else
    username_result <- terminal_execute "git config user.name" ;;
    let username := config_value username_result in
    email_result <- terminal_execute "git config user.email" ;;
    let email := config_value email_result in
    ret [("is_configured", VBool (truthy (py_and username email)));
         ("git_installed", VBool true);
         ("username", username);
         ("email", email)].

Definition check_git_config : M World dict :=
  try_except check_git_config_body (fun e => ret (config_failure e)).

(** *** clone_repository (lines 162-201) *)

Definition ensure_directory (directory : string) : M World unit :=
  dir_exists <- os_path_exists directory ;;
  if negb dir_exists then os_makedirs directory else ret tt.

Definition clone_repository_body (repo_url directory : string) : M World dict :=
  ensure_directory directory ;;;
  let repo_name := derive_repo_name repo_url in
  let repo_path := PyStr.path_join directory repo_name in
  repo_exists <- os_path_exists repo_path ;;
  if repo_exists then
    os_chdir repo_path ;;;
    pull_result <- terminal_execute "git pull" ;;
    ret [("success", VBool (exit_ok pull_result));
         ("action", VStr "pulled");
         ("repo_path", VStr repo_path);
         ("output", VStr (stdout pull_result));
         ("error", stderr_if_failed pull_result)]
  else
    os_chdir directory ;;;
    clone_result <- terminal_execute ("git clone " +++ repo_url) ;;
    ret [("success", VBool (exit_ok clone_result));
         ("action", VStr "cloned");
         ("repo_path", VStr repo_path);
         ("output", VStr (stdout clone_result));
         ("error", stderr_if_failed clone_result)].

Definition clone_repository (repo_url directory : string) : M World dict :=
  try_except (clone_repository_body repo_url directory)
             (fun e => ret (step_failure e)).

(** *** stage_changes (lines 203-243) *)

Fixpoint add_each (files : list string) (results : list value)
  : M World (list value) :=
  match files with
  | [] => ret results
  | file :: files' =>
      result <- terminal_execute ("git add " +++ file) ;;
      add_each files' (results ++ [file_result file result])
  end.

Definition stage_changes_body (repo_path : string)
  (specific_files : option (list string)) : M World dict :=
  os_chdir repo_path ;;;
  status_before <- terminal_execute "git status" ;;
  match specific_files with
  | Some (f :: fs) =>
      results <- add_each (f :: fs) [] ;;
      let success := forallb entry_success results in
      ret [("success", VBool success);
           ("action", VStr "staged_specific_files");
           ("files", VList (map VStr (f :: fs)));
           ("results", VList results)]
  | _ =>
      result <- terminal_execute "git add ." ;;
      ret [("success", VBool (exit_ok result));
           ("action", VStr "staged_all");
           ("output", VStr (stdout result));
           ("error", stderr_if_failed result)]
  end.

Definition stage_changes (repo_path : string)
  (specific_files : option (list string)) : M World dict :=
  try_except (stage_changes_body repo_path specific_files)
             (fun e => ret (step_failure e)).

(** *** commit_changes (lines 245-273) *)

Definition commit_changes_body (repo_path commit_message : string)
  : M World dict :=
  os_chdir repo_path ;;;
  status_result <- terminal_execute "git status" ;;
  if PyStr.contains nothing_marker (stdout status_result) then
    ret no_changes_result
  else
    result <- terminal_execute (commit_command commit_message) ;;
    ret [("success", VBool (exit_ok result));
         ("action", VStr "committed");
         ("commit_message", VStr commit_message);
         ("output", VStr (stdout result));
         ("error", stderr_if_failed result)].

Definition commit_changes (repo_path commit_message : string) : M World dict :=
  try_except (commit_changes_body repo_path commit_message)
             (fun e => ret (step_failure e)).

(** *** push_changes (lines 275-294) *)

Definition push_changes_body (repo_path branch_name : string) : M World dict :=
  os_chdir repo_path ;;;
  result <- terminal_execute ("git push origin " +++ branch_name) ;;
  ret [("success", VBool (exit_ok result));
       ("action", VStr "pushed");
       ("branch", VStr branch_name);
       ("output", VStr (stdout result));
       ("error", stderr_if_failed result)].

Definition push_changes (repo_path branch_name : string) : M World dict :=
  try_except (push_changes_body repo_path branch_name)
             (fun e => ret (step_failure e)).

(** *** github_push (lines 17-127) *)

Definition stage_commit_push (repo_url : option string)
  (commit_message branch_name : string)
  (specific_files : option (list string))
  (git_config : dict) (clone : value) (repo_path : string) : M World Response :=
  stage_result <- stage_changes repo_path specific_files ;;
  stage_ok <- getitem "success" stage_result ;;
  if negb (truthy stage_ok) then
    ret (mkResponse 400 (failure_body "Failed to stage changes" stage_result))
  else
    commit_result <- commit_changes repo_path commit_message ;;
    commit_ok <- getitem "success" commit_result ;;
    if negb (truthy commit_ok) then
      ret (mkResponse 400
             (failure_body "Failed to commit changes" commit_result))
    else
      push_result <- push_changes repo_path branch_name ;;
      push_ok <- getitem "success" push_result ;;
      if negb (truthy push_ok) then
        ret (mkResponse 400
               (failure_body "Failed to push changes" push_result))
      else
        ret (mkResponse 200
               (success_body repo_url branch_name git_config clone
                  stage_result commit_result push_result)).

(** The [try] block (lines 31-117).  [os.getcwd()] is evaluated on line 34,
    as the default argument of [data.get], whether or not the request
    names a [clone_directory]. *)
Definition github_push_body (request : Request) : M World Response :=
  let repo_url := req_repo_url request in
  cwd <- os_getcwd ;;
  let clone_directory := get_default (req_clone_directory request) cwd in
  let commit_message :=
    get_default (req_commit_message request) "Automated commit via MCP agent" in
  let branch_name := get_default (req_branch_name request) "main" in
  let specific_files := req_specific_files request in
  git_config <- check_git_config ;;
  is_configured <- getitem "is_configured" git_config ;;
  if negb (truthy is_configured) then
    ret (mkResponse 400
           (failure_body
              "Git is not properly configured. Please configure Git first."
              git_config))
  else
    let repo_name := option_map derive_repo_name (url_given repo_url) in
    let repo_path :=
      match repo_name with
      | Some n => if PyStr.nonempty n
                  then PyStr.path_join clone_directory n
                  else clone_directory
      | None => clone_directory
      end in
    match url_given repo_url with
    | Some url =>
        clone_result <- clone_repository url clone_directory ;;
        clone_ok <- getitem "success" clone_result ;;
        if negb (truthy clone_ok) then
          ret (mkResponse 400
                 (failure_body "Failed to clone repository" clone_result))
        else
          cloned_path <- getitem "repo_path" clone_result ;;
          repo_path' <- as_path cloned_path ;;
          stage_commit_push repo_url commit_message branch_name
            specific_files git_config (VDict clone_result) repo_path'
    | None =>
        stage_commit_push repo_url commit_message branch_name
          specific_files git_config (VStr "Skipped") repo_path
    end.

Definition github_push (request : Request) : M World Response :=
  try_except (github_push_body request)
             (fun e => ret (mkResponse 500 (error_body e))).

(** *** Vocabulary *)



(** An outcome that is no escaped [Exception]: a value satisfying [Q], or
    an interruption. *)
Definition settled {A : Type} (Q : A -> Prop) (o : Outcome A) : Prop :=
  match o with
  | Returned a => Q a
  | Raised _ => False
  | Interrupted _ => True
  end.

(** A computation out of which no [Exception] escapes. *)
Definition settles {A : Type} (Q : A -> Prop) (m : M World A) : Prop :=
  forall st, settled Q (snd (m st)).

(** A computation whose value, when it returns, satisfies [Q]. *)
Definition attempts {A : Type} (Q : A -> Prop) (m : M World A) : Prop :=
  forall st a, snd (m st) = Returned a -> Q a.

(** An answer of [git config user.X] that counts as configured: the command
    returned, with exit status zero and an output that is not blank. *)
Definition answer_set (r : Outcome ProcResult) : bool :=
  match r with
  | Returned p => negb (unset_or_empty p)
  | _ => false
  end.

(** The three commands of the configuration check, each in the world the
    one before left, up to the first that does not return with exit status
    zero ([git --version]) or does not return (the queries): the check
    finds git configured when all three returned, [git --version] with
    exit status zero and both queries with exit status zero and an output
    that is not blank. *)
Definition config_verdict (w : World) : bool :=
  match run_command env "git --version" w with
  | (w1, Returned version) =>
      exit_ok version
      && match run_command env "git config user.name" w1 with
         | (w2, Returned name) =>
             match run_command env "git config user.email" w2 with
             | (_, email) => answer_set (Returned name) && answer_set email
             end
         | _ => false
         end
  | _ => false
  end.

End Steps.

(** A response of the pipeline proper: 200 or 400, with a ["success"] flag
    that is true exactly for 200. *)
Definition step_response (response : Response) : Prop :=
  (status response = 200 \/ status response = 400)
  /\ lookup "success" (body response)
     = Some (VBool (status response =? 200)).

End Async.

(** The dictionaries of the steps carry their flag as a [bool]. *)
Definition has_flag (k : string) (d : dict) : Prop :=
  exists b, lookup k d = Some (VBool b).

(** The dictionary of a successful clone step carries the repository
    path. *)
Definition has_path (d : dict) : Prop :=
  exists b, lookup "success" d = Some (VBool b)
            /\ (b = true -> exists p, lookup "repo_path" d = Some (VStr p)).

(** An environment without interruptions, seen as one that could have
    them. *)
Definition lift_result {A : Type} (r : Exn + A) : Async.Outcome A :=
  match r with
  | inl e => Async.Raised e
  | inr a => Async.Returned a
  end.

Definition lift_env {World : Type} (env : Env World) : Async.Env World :=
  Async.mkEnv
    (fun cmd w => let (w', r) := run_command env cmd w in (w', lift_result r))
    (fs_exists env)
    (fun path w => let (w', r) := fs_makedirs env path w in (w', lift_result r))
    (fun path w => let (w', r) := fs_chdir env path w in (w', lift_result r))
    (fun w => Async.Returned (fs_getcwd env w)).

(** The two models compute the same thing. *)
Definition agrees {World A : Type} (m : M World A) (m' : Async.M World A)
  : Prop :=
  forall st, m' st = (fst (m st), lift_result (snd (m st))).

(** Machines for the simulation on which a run is disturbed from outside. *)
Module Disturbed.


(** The terminal is lost when asked to run [bad]: [terminal.execute] raises
    an [Exception] there. *)
Definition losing (bad : string) : Async.Env Sim.world :=
  Async.mkEnv
    (fun cmd w =>
       if String.eqb cmd bad then (w, Async.Raised "terminal closed")
       else Async.run_command (lift_env Sim.env) cmd w)
    (fs_exists Sim.env)
    (Async.fs_makedirs (lift_env Sim.env))
    (Async.fs_chdir (lift_env Sim.env))
    (Async.fs_getcwd (lift_env Sim.env)).

(** The working directory of the server has been removed: [os.getcwd()]
    raises [FileNotFoundError]. *)
Definition no_cwd : Async.Env Sim.world :=
  Async.mkEnv
    (Async.run_command (lift_env Sim.env))
    (fs_exists Sim.env)
    (Async.fs_makedirs (lift_env Sim.env))
    (Async.fs_chdir (lift_env Sim.env))
    (fun _ => Async.Raised "[Errno 2] No such file or directory").

End Disturbed.

(* ================================================================== *)
(** ** Reasoning about steps *)
(* ================================================================== *)

Section Logic.

Context {World : Type} (env : Env World).

Lemma bind_inr {A B : Type} (m : M World A) (k : A -> M World B) st st' a :
  m st = (st', inr a) -> bind m k st = k a st'.
Proof. intros H. unfold bind. now rewrite H. Qed.

Lemma bind_inl {A B : Type} (m : M World A) (k : A -> M World B) st st' e :
  m st = (st', inl e) -> bind m k st = (st', inl e).
Proof. intros H. unfold bind. now rewrite H. Qed.

Lemma try_except_inr {A : Type} (m : M World A) h st st' a :
  m st = (st', inr a) -> try_except m h st = (st', inr a).
Proof. intros H. unfold try_except. now rewrite H. Qed.

Lemma try_except_inl {A : Type} (m : M World A) h st st' e :
  m st = (st', inl e) -> try_except m h st = h e st'.
Proof. intros H. unfold try_except. now rewrite H. Qed.

Lemma terminal_execute_run cmd st w r :
  run_command env cmd (world st) = (w, r) ->
  terminal_execute env cmd st = (mkState w (trace st ++ [EvExecute cmd]), r).
Proof. intros H. unfold terminal_execute. now rewrite H. Qed.

Lemma os_chdir_run path st w r :
  fs_chdir env path (world st) = (w, r) ->
  os_chdir env path st = (mkState w (trace st ++ [EvChdir path]), r).
Proof. intros H. unfold os_chdir. now rewrite H. Qed.

(** *** Rules for [emits] *)

Lemma emits_ret {A : Type} (P : Event -> Prop) (Q : A -> Prop) (a : A) :
  Q a -> emits (World := World) P Q (ret a).
Proof.
  intros Ha st. exists st, (inr a), []. unfold ret.
  split; [reflexivity | split; [now rewrite app_nil_r | split; [constructor |]]].
  intros a' Heq. now inversion Heq; subst.
Qed.

Lemma emits_raise {A : Type} (P : Event -> Prop) (Q : A -> Prop) (e : Exn) :
  emits (World := World) P Q (raise e).
Proof.
  intros st. exists st, (inl e), []. unfold raise.
  split; [reflexivity | split; [now rewrite app_nil_r | split; [constructor |]]].
  intros a Heq. discriminate Heq.
Qed.

Lemma emits_bind {A B : Type} (P : Event -> Prop) (Q1 : A -> Prop)
  (Q2 : B -> Prop) (m : M World A) (k : A -> M World B) :
  emits P Q1 m ->
  (forall a, Q1 a -> emits P Q2 (k a)) ->
  emits P Q2 (bind m k).
Proof.
  intros Hm Hk st.
  destruct (Hm st) as (st1 & r & evs1 & Hrun & Htr & Hall & Hq).
  destruct r as [e | a].
  - exists st1, (inl e), evs1. rewrite (bind_inl _ _ _ _ _ Hrun).
    repeat split; auto. intros b Heq. discriminate Heq.
  - destruct (Hk a (Hq a eq_refl) st1) as (st2 & r2 & evs2 & Hrun2 & Htr2 & Hall2 & Hq2).
    exists st2, r2, (evs1 ++ evs2). rewrite (bind_inr _ _ _ _ _ Hrun).
    repeat split; auto.
    + now rewrite Htr2, Htr, app_assoc.
    + now apply Forall_app.
Qed.

Lemma emits_try {A : Type} (P : Event -> Prop) (Q : A -> Prop)
  (m : M World A) (h : Exn -> M World A) :
  emits P Q m ->
  (forall e, emits P Q (h e)) ->
  emits P Q (try_except m h).
Proof.
  intros Hm Hh st.
  destruct (Hm st) as (st1 & r & evs1 & Hrun & Htr & Hall & Hq).
  destruct r as [e | a].
  - destruct (Hh e st1) as (st2 & r2 & evs2 & Hrun2 & Htr2 & Hall2 & Hq2).
    exists st2, r2, (evs1 ++ evs2). rewrite (try_except_inl _ _ _ _ _ Hrun).
    repeat split; auto.
    + now rewrite Htr2, Htr, app_assoc.
    + now apply Forall_app.
  - exists st1, (inr a), evs1. rewrite (try_except_inr _ _ _ _ _ Hrun).
    repeat split; auto.
Qed.

Lemma emits_execute (P : Event -> Prop) cmd :
  P (EvExecute cmd) -> emits P (fun _ => True) (terminal_execute env cmd).
Proof.
  intros Hp st. destruct (run_command env cmd (world st)) as [w r] eqn:Hrun.
  exists (mkState w (trace st ++ [EvExecute cmd])), r, [EvExecute cmd].
  rewrite (terminal_execute_run _ _ _ _ Hrun). repeat split; auto.
Qed.

Lemma emits_chdir (P : Event -> Prop) path :
  P (EvChdir path) -> emits P (fun _ => True) (os_chdir env path).
Proof.
  intros Hp st. destruct (fs_chdir env path (world st)) as [w r] eqn:Hrun.
  exists (mkState w (trace st ++ [EvChdir path])), r, [EvChdir path].
  rewrite (os_chdir_run _ _ _ _ Hrun). repeat split; auto.
Qed.

Lemma emits_getitem (P : Event -> Prop) k d :
  emits (World := World) P (fun v => lookup k d = Some v) (getitem k d).
Proof.
  unfold getitem. destruct (lookup k d) as [v |].
  - now apply emits_ret.
  - apply emits_raise.
Qed.

End Logic.

(* ================================================================== *)
(** ** The derived repository name *)
(* ================================================================== *)

(** C1. The derived name is meant to be the last path segment without its
    trailing [.git], hence the segment itself when it does not end in
    [.git].  On [https://github.com/user/user.github.io] the program
    derives [userhub.io] instead: [replace] deletes the [.git] inside the
    segment, although the segment does not end in [.git] and removing a
    trailing suffix leaves it unchanged. *)
Theorem derive_repo_name_drops_inner_git :
  derive_repo_name "https://github.com/user/user.github.io" = "userhub.io"
  /\ url_last_segment "https://github.com/user/user.github.io"
     = "user.github.io"
  /\ PyStr.endswith "user.github.io" ".git" = false
  /\ PyStr.removesuffix
       (url_last_segment "https://github.com/user/user.github.io") ".git"
     = "user.github.io".
Proof. repeat split; reflexivity. Qed.

(** The same slip with a [.git] suffix present: two occurrences are deleted
    where a suffix removal deletes one. *)
Example derive_repo_name_drops_every_git :
  derive_repo_name "https://github.com/user/user.github.io.git" = "userhub.io"
  /\ PyStr.removesuffix
       (url_last_segment "https://github.com/user/user.github.io.git") ".git"
     = "user.github.io".
Proof. split; reflexivity. Qed.

(** On the URL of the handler's docstring both readings agree. *)
Example derive_repo_name_docstring :
  derive_repo_name "https://github.com/username/repo.git" = "repo"
  /\ PyStr.removesuffix
       (url_last_segment "https://github.com/username/repo.git") ".git"
     = "repo".
Proof. split; reflexivity. Qed.

(** Where the two readings do agree: [replace] leaves a string without
    occurrence of [old] as it is, so a last segment in which [.git] does
    not occur is the derived name. *)
Lemma replace_absent old new s :
  PyStr.contains old s = false -> PyStr.replace old new s = s.
Proof.
  unfold PyStr.replace.
  induction s as [| c s IH]; intros Habsent; [reflexivity |].
  cbn [PyStr.contains] in Habsent.
  apply orb_false_iff in Habsent. destruct Habsent as [Hprefix Hrest].
  cbn [PyStr.replace_from]. rewrite Hprefix. f_equal. now apply IH.
Qed.

Lemma derive_repo_name_without_git repo_url :
  PyStr.contains ".git" (url_last_segment repo_url) = false ->
  derive_repo_name repo_url = url_last_segment repo_url.
Proof. apply replace_absent. Qed.

(* ================================================================== *)
(** ** Clone or pull *)
(* ================================================================== *)

Section CloneOrPull.

Context {World : Type} (env : Env World).

(** What [ensure_directory] leaves in the trace. *)
Lemma ensure_directory_trace directory st st1 :
  ensure_directory env directory st = (st1, inr tt) ->
  trace st1 = trace st \/ trace st1 = trace st ++ [EvMakedirs directory].
Proof.
  unfold ensure_directory, bind, os_path_exists, os_makedirs, ret.
  destruct (fs_exists env directory (world st)); simpl.
  - intros Heq. inversion Heq. now left.
  - destruct (fs_makedirs env directory (world st)) as [w r].
    intros Heq. inversion Heq. now right.
Qed.

(** C2. Once the target directory is in place (at most one [os.makedirs]),
    [clone_repository] looks up the derived repository path.  If the path
    exists it changes into it and runs [git pull], nothing else, and reports
    ["pulled"]; if not it changes into the target directory, runs
    [git clone repo_url], nothing else, and reports ["cloned"]. *)
Theorem clone_repository_pull_or_clone repo_url directory st st1 :
  ensure_directory env directory st = (st1, inr tt) ->
  let repo_path := PyStr.path_join directory (derive_repo_name repo_url) in
  (trace st1 = trace st \/ trace st1 = trace st ++ [EvMakedirs directory])
  /\ (fs_exists env repo_path (world st1) = true ->
   forall w2 w3 pull_result,
     fs_chdir env repo_path (world st1) = (w2, inr tt) ->
     run_command env "git pull" w2 = (w3, inr pull_result) ->
     clone_repository env repo_url directory st
     = (mkState w3 (trace st1 ++ [EvChdir repo_path; EvExecute "git pull"]),
        inr [("success", VBool (exit_ok pull_result));
             ("action", VStr "pulled");
             ("repo_path", VStr repo_path);
             ("output", VStr (stdout pull_result));
             ("error", stderr_if_failed pull_result)]))
  /\ (fs_exists env repo_path (world st1) = false ->
      forall w2 w3 clone_result,
        fs_chdir env directory (world st1) = (w2, inr tt) ->
        run_command env ("git clone " +++ repo_url) w2
        = (w3, inr clone_result) ->
        clone_repository env repo_url directory st
        = (mkState w3
             (trace st1
              ++ [EvChdir directory; EvExecute ("git clone " +++ repo_url)]),
           inr [("success", VBool (exit_ok clone_result));
                ("action", VStr "cloned");
                ("repo_path", VStr repo_path);
                ("output", VStr (stdout clone_result));
                ("error", stderr_if_failed clone_result)])).
Proof.
  intros Hdir repo_path.
  split; [exact (ensure_directory_trace _ _ _ Hdir) |].
  unfold clone_repository, clone_repository_body.
  split; intros Hexists w2 w3 r Hcd Hrun;
    (erewrite try_except_inr; [reflexivity |]);
    rewrite (bind_inr _ _ _ _ _ Hdir);
    unfold bind at 1; unfold os_path_exists at 1;
    fold repo_path; rewrite Hexists;
    rewrite (bind_inr _ _ _ _ _ (os_chdir_run env _ _ _ _ Hcd));
    (erewrite bind_inr by (apply terminal_execute_run; exact Hrun));
    unfold ret; simpl; now rewrite <- app_assoc.
Qed.

End CloneOrPull.

(** C2 on the simulation: [/work/app] exists, so the repository is pulled;
    in an empty [/work] it is cloned. *)
Lemma clone_repository_pull_or_clone_witness :
  (ensure_directory Sim.env "/work" (Sim.start Sim.clean)
   = (Sim.start Sim.clean, inr tt)
   /\ lookup "action"
        (match snd (clone_repository Sim.env "https://example.com/org/app.git"
                      "/work" (Sim.start Sim.clean)) with
         | inr d => d
         | inl _ => []
         end) = Some (VStr "pulled")
   /\ trace (fst (clone_repository Sim.env "https://example.com/org/app.git"
                    "/work" (Sim.start Sim.clean)))
      = [EvChdir "/work/app"; EvExecute "git pull"])
  /\ (lookup "action"
        (match snd (clone_repository Sim.env "https://example.com/org/app.git"
                      "/work" (Sim.start Sim.fresh)) with
         | inr d => d
         | inl _ => []
         end) = Some (VStr "cloned")
      /\ trace (fst (clone_repository Sim.env "https://example.com/org/app.git"
                       "/work" (Sim.start Sim.fresh)))
         = [EvChdir "/work";
            EvExecute "git clone https://example.com/org/app.git"]).
Proof.
  split.
  - split; [reflexivity |].
    destruct (clone_repository_pull_or_clone Sim.env
                "https://example.com/org/app.git" "/work"
                (Sim.start Sim.clean) (Sim.start Sim.clean) eq_refl)
      as (_ & Hpull & _).
    rewrite (Hpull eq_refl _ _ _ eq_refl eq_refl).
    split; reflexivity.
  - destruct (clone_repository_pull_or_clone Sim.env
                "https://example.com/org/app.git" "/work"
                (Sim.start Sim.fresh) (Sim.start Sim.fresh) eq_refl)
      as (_ & _ & Hclone).
    rewrite (Hclone eq_refl _ _ _ eq_refl eq_refl).
    split; reflexivity.
Defined.

(* ================================================================== *)
(** ** Staging *)
(* ================================================================== *)

(** The entry recorded for a file carries the exit status of its add. *)
Lemma entry_success_file_result file result :
  entry_success (file_result file result) = exit_ok result.
Proof. reflexivity. Qed.

Lemma forallb_entry_success files rs :
  length rs = length files ->
  forallb entry_success (file_results files rs) = forallb exit_ok rs.
Proof.
  unfold file_results. revert rs.
  induction files as [| f files IH]; intros [| r rs] Hlen;
    try discriminate Hlen; [reflexivity |].
  cbn [combine map forallb fst snd]. rewrite entry_success_file_result.
  f_equal. apply IH. now injection Hlen.
Qed.

Section Staging.

Context {World : Type} (env : Env World).

Lemma add_outcomes_length files :
  forall w w' (rs : list ProcResult),
    add_outcomes env files w = (w', map inr rs) -> length rs = length files.
Proof.
  induction files as [| f files IH]; intros w w' rs Hout;
    cbn [add_outcomes] in Hout.
  - inversion Hout as [[Hw Hrs]]. now destruct rs.
  - destruct (run_command env ("git add " +++ f) w) as [w1 r].
    destruct (add_outcomes env files w1) as [w2 rs'] eqn:Hrest.
    destruct rs as [| r0 rs0]; inversion Hout; subst.
    simpl. f_equal. now apply (IH w1 w' rs0).
Qed.

(** The loop over the files, when every add returns: one [git add] per file
    in order, one entry per file appended to [results]. *)
Lemma add_each_run files :
  forall results st w' (rs : list ProcResult),
    add_outcomes env files (world st) = (w', map inr rs) ->
    add_each env files results st
    = (mkState w'
         (trace st ++ map (fun file => EvExecute ("git add " +++ file)) files),
       inr (results ++ file_results files rs)).
Proof.
  induction files as [| f files IH]; intros results st w' rs Hout;
    cbn [add_outcomes] in Hout.
  - inversion Hout as [[Hw Hrs]]. destruct rs; [| discriminate Hrs].
    unfold file_results. simpl. unfold ret. rewrite !app_nil_r.
    now destruct st.
  - destruct (run_command env ("git add " +++ f) (world st)) as [w1 r] eqn:Hrun.
    destruct (add_outcomes env files w1) as [w2 rs'] eqn:Hrest.
    destruct rs as [| r0 rs0]; inversion Hout; subst.
    simpl add_each.
    rewrite (bind_inr _ _ _ _ _ (terminal_execute_run env _ _ _ _ Hrun)).
    rewrite (IH _ (mkState w1 (trace st ++ [EvExecute ("git add " +++ f)]))
               w' rs0 Hrest).
    simpl. unfold file_results. simpl. now rewrite <- !app_assoc.
Qed.

(** C4. With a non-empty [specific_files], once the status snapshot is
    taken [stage_changes] runs [git add file] once per file, in order and
    for every file whatever the exit status of the earlier ones, records
    for each file whether its own add exited with status zero, and reports
    as ["success"] the conjunction of these. *)
Theorem stage_changes_specific_files repo_path file files st w1 w2 w3
  snapshot (rs : list ProcResult) :
  fs_chdir env repo_path (world st) = (w1, inr tt) ->
  run_command env "git status" w1 = (w2, inr snapshot) ->
  add_outcomes env (file :: files) w2 = (w3, map inr rs) ->
  length rs = length (file :: files)
  /\ stage_changes env repo_path (Some (file :: files)) st
     = (mkState w3
          (trace st
           ++ [EvChdir repo_path; EvExecute "git status"]
           ++ map (fun f => EvExecute ("git add " +++ f)) (file :: files)),
        inr [("success", VBool (forallb exit_ok rs));
             ("action", VStr "staged_specific_files");
             ("files", VList (map VStr (file :: files)));
             ("results", VList (file_results (file :: files) rs))])
  /\ Forall2 (fun entry r => entry_success entry = exit_ok r)
       (file_results (file :: files) rs) rs.
Proof.
  intros Hcd Hstatus Hadds.
  pose proof (add_outcomes_length _ _ _ _ Hadds) as Hlen.
  split; [exact Hlen | split].
  - unfold stage_changes, stage_changes_body.
    erewrite try_except_inr; [reflexivity |].
    rewrite (bind_inr _ _ _ _ _ (os_chdir_run env _ _ _ _ Hcd)).
    erewrite bind_inr by (apply terminal_execute_run; exact Hstatus).
    erewrite bind_inr by (apply add_each_run; exact Hadds).
    unfold ret. cbn [app trace].
    rewrite (forallb_entry_success _ _ Hlen).
    now rewrite <- !app_assoc.
  - clear Hadds. revert Hlen. generalize (file :: files) as fs.
    induction rs as [| r rs' IH]; intros [| f fs] Hlen;
      try discriminate Hlen; constructor.
    + apply entry_success_file_result.
    + apply IH. now injection Hlen.
Qed.

(** C5. An empty [specific_files] list is handled exactly like an absent
    one: the stage-all branch runs, with the single command [git add .]
    and the action ["staged_all"]. *)
Theorem stage_changes_empty_list_stages_all repo_path st :
  stage_changes env repo_path (Some []) st
  = stage_changes env repo_path None st
  /\ (forall w1 w2 w3 snapshot result,
        fs_chdir env repo_path (world st) = (w1, inr tt) ->
        run_command env "git status" w1 = (w2, inr snapshot) ->
        run_command env "git add ." w2 = (w3, inr result) ->
        stage_changes env repo_path (Some []) st
        = (mkState w3
             (trace st ++ [EvChdir repo_path; EvExecute "git status";
                           EvExecute "git add ."]),
           inr [("success", VBool (exit_ok result));
                ("action", VStr "staged_all");
                ("output", VStr (stdout result));
                ("error", stderr_if_failed result)])).
Proof.
  split; [reflexivity |].
  intros w1 w2 w3 snapshot result Hcd Hstatus Hadd.
  unfold stage_changes, stage_changes_body.
  erewrite try_except_inr; [reflexivity |].
  rewrite (bind_inr _ _ _ _ _ (os_chdir_run env _ _ _ _ Hcd)).
  erewrite bind_inr by (apply terminal_execute_run; exact Hstatus).
  erewrite bind_inr by (apply terminal_execute_run; exact Hadd).
  unfold ret. cbn [app trace]. now rewrite <- !app_assoc.
Qed.

End Staging.

(** C4 on the simulation: [missing.txt] cannot be added, [a.py] can.  The
    add of [a.py] still runs after the failure and its entry reports
    success; the step does not. *)
Lemma stage_changes_specific_files_witness :
  (fs_chdir Sim.env "/work/app" Sim.edited
   = (Sim.set_paths Sim.edited "/work/app" (Sim.paths Sim.edited), inr tt)
   /\ add_outcomes Sim.env ["missing.txt"; "a.py"]
        (Sim.set_paths Sim.edited "/work/app" (Sim.paths Sim.edited))
      = (Sim.mkWorld "/work/app" ["/work"; "/work/app"] (Some "Ada")
           (Some "ada@example.com") [] ["a.py"],
         map inr
           [mkProc 128 ""
              "fatal: pathspec 'missing.txt' did not match any files";
            mkProc 0 "" ""]))
  /\ trace (fst (stage_changes Sim.env "/work/app"
                   (Some ["missing.txt"; "a.py"]) (Sim.start Sim.edited)))
     = [EvChdir "/work/app"; EvExecute "git status";
        EvExecute "git add missing.txt"; EvExecute "git add a.py"]
  /\ snd (stage_changes Sim.env "/work/app"
            (Some ["missing.txt"; "a.py"]) (Sim.start Sim.edited))
     = inr [("success", VBool false);
            ("action", VStr "staged_specific_files");
            ("files", VList [VStr "missing.txt"; VStr "a.py"]);
            ("results",
             VList
               [VDict [("file", VStr "missing.txt");
                       ("success", VBool false);
                       ("output", VStr "");
                       ("error",
                        VStr "fatal: pathspec 'missing.txt' did not match any files")];
                VDict [("file", VStr "a.py"); ("success", VBool true);
                       ("output", VStr ""); ("error", VNone)]])].
Proof.
  split; [split; reflexivity |].
  destruct (stage_changes_specific_files Sim.env "/work/app" "missing.txt"
              ["a.py"] (Sim.start Sim.edited) _ _ _ _
              [mkProc 128 ""
                 "fatal: pathspec 'missing.txt' did not match any files";
               mkProc 0 "" ""]
              eq_refl eq_refl eq_refl) as (_ & Hrun & _).
  rewrite Hrun. split; reflexivity.
Defined.

(** The scenario with the files in the other order: the failure comes last
    and the aggregate is false all the same. *)
Example stage_changes_missing_file_last :
  snd (stage_changes Sim.env "/work/app"
         (Some ["a.py"; "missing.txt"]) (Sim.start Sim.edited))
  = inr [("success", VBool false);
         ("action", VStr "staged_specific_files");
         ("files", VList [VStr "a.py"; VStr "missing.txt"]);
         ("results",
          VList
            [VDict [("file", VStr "a.py"); ("success", VBool true);
                    ("output", VStr ""); ("error", VNone)];
             VDict [("file", VStr "missing.txt");
                    ("success", VBool false);
                    ("output", VStr "");
                    ("error",
                     VStr "fatal: pathspec 'missing.txt' did not match any files")]])].
Proof. reflexivity. Qed.

(** C5 on the simulation: an empty list stages everything there is. *)
Lemma stage_changes_empty_list_stages_all_witness :
  stage_changes Sim.env "/work/app" (Some []) (Sim.start Sim.busy)
  = stage_changes Sim.env "/work/app" None (Sim.start Sim.busy)
  /\ stage_changes Sim.env "/work/app" (Some []) (Sim.start Sim.busy)
     = (mkState
          (Sim.mkWorld "/work/app" ["/work"; "/work/app"] (Some "Ada")
             (Some "ada@example.com") [] ["a.py"; "notes.txt"])
          [EvChdir "/work/app"; EvExecute "git status"; EvExecute "git add ."],
        inr [("success", VBool true); ("action", VStr "staged_all");
             ("output", VStr ""); ("error", VNone)]).
Proof.
  destruct (stage_changes_empty_list_stages_all Sim.env "/work/app"
              (Sim.start Sim.busy)) as [Hsame Hall].
  split; [exact Hsame |].
  exact (Hall _ _ _ _ _ eq_refl eq_refl eq_refl).
Defined.

(* ================================================================== *)
(** ** Committing *)
(* ================================================================== *)

Section Committing.

Context {World : Type} (env : Env World).

(** What a [commit_changes] that finds the marker returns. *)
Lemma commit_changes_marker_result repo_path commit_message st w1 w2
  status_result :
  fs_chdir env repo_path (world st) = (w1, inr tt) ->
  run_command env "git status" w1 = (w2, inr status_result) ->
  PyStr.contains nothing_marker (stdout status_result) = true ->
  snd (commit_changes env repo_path commit_message st)
  = inr no_changes_result.
Proof.
  intros Hcd Hstatus Hmarker.
  unfold commit_changes, commit_changes_body, try_except, bind.
  rewrite (os_chdir_run env _ _ _ _ Hcd).
  unfold terminal_execute at 1. cbn [world]. rewrite Hstatus.
  now rewrite Hmarker.
Qed.

(** C6. When the output of the [git status] that [commit_changes] runs
    contains ["nothing to commit"], the step returns success with action
    ["no_changes"]; it has changed directory and asked for the status, and
    has run no commit. *)
Theorem commit_changes_nothing_to_commit repo_path commit_message st w1 w2
  status_result :
  fs_chdir env repo_path (world st) = (w1, inr tt) ->
  run_command env "git status" w1 = (w2, inr status_result) ->
  PyStr.contains nothing_marker (stdout status_result) = true ->
  commit_changes env repo_path commit_message st
  = (mkState w2 (trace st ++ [EvChdir repo_path; EvExecute "git status"]),
     inr [("success", VBool true);
          ("action", VStr "no_changes");
          ("message", VStr "No changes to commit")]).
Proof.
  intros Hcd Hstatus Hmarker.
  unfold commit_changes, commit_changes_body.
  erewrite try_except_inr; [reflexivity |].
  rewrite (bind_inr _ _ _ _ _ (os_chdir_run env _ _ _ _ Hcd)).
  erewrite bind_inr by (apply terminal_execute_run; exact Hstatus).
  rewrite Hmarker. unfold ret, no_changes_result. cbn [trace].
  now rewrite <- app_assoc.
Qed.

(** Where a second call does report ["no_changes"]: when [git status],
    asked by the second call, prints ["nothing to commit"].  This is the
    marker check of one call, at the state the first call left. *)
Lemma commit_changes_twice repo_path commit_message st w1 w2 status_result :
  let st1 := fst (commit_changes env repo_path commit_message st) in
  fs_chdir env repo_path (world st1) = (w1, inr tt) ->
  run_command env "git status" w1 = (w2, inr status_result) ->
  PyStr.contains nothing_marker (stdout status_result) = true ->
  second_commit_no_changes env repo_path commit_message st.
Proof.
  intros st1 Hcd Hstatus Hmarker. unfold second_commit_no_changes.
  fold st1.
  pose proof (commit_changes_marker_result repo_path commit_message st1
                w1 w2 status_result Hcd Hstatus Hmarker) as Hsecond.
  destruct (commit_changes env repo_path commit_message st1) as [st2 r].
  cbn [snd] in Hsecond. subst r.
  exists st2, no_changes_result.
  split; [reflexivity | split; reflexivity].
Qed.

End Committing.

(** C6 on the simulation: a clean work tree. *)
Lemma commit_changes_nothing_to_commit_witness :
  PyStr.contains nothing_marker (Sim.status_text Sim.clean) = true
  /\ commit_changes Sim.env "/work/app" "fix bug" (Sim.start Sim.clean)
     = (mkState (Sim.set_paths Sim.clean "/work/app" (Sim.paths Sim.clean))
          [EvChdir "/work/app"; EvExecute "git status"],
        inr [("success", VBool true);
             ("action", VStr "no_changes");
             ("message", VStr "No changes to commit")]).
Proof.
  split; [reflexivity |].
  exact (commit_changes_nothing_to_commit Sim.env "/work/app" "fix bug"
           (Sim.start Sim.clean) _ _ _ eq_refl eq_refl eq_refl).
Defined.

(** On the simulation: only [a.py] was modified and it is staged; the
    first call commits it, the second finds nothing to commit. *)
Lemma commit_changes_twice_clean_tree :
  snd (commit_changes Sim.env "/work/app" "fix bug"
         (Sim.start (Sim.set_index Sim.edited [] ["a.py"])))
  = inr [("success", VBool true); ("action", VStr "committed");
         ("commit_message", VStr "fix bug");
         ("output", VStr "1 file changed"); ("error", VNone)]
  /\ second_commit_no_changes Sim.env "/work/app" "fix bug"
       (Sim.start (Sim.set_index Sim.edited [] ["a.py"])).
Proof.
  split; [reflexivity |].
  exact (commit_changes_twice Sim.env "/work/app" "fix bug"
           (Sim.start (Sim.set_index Sim.edited [] ["a.py"]))
           _ _ _ eq_refl eq_refl eq_refl).
Defined.

(** C7. Two calls in a row, nothing changed in between: the second is
    meant to find that there is nothing to commit (line 250,
    [# Check if there are changes to commit]) and to report
    ["no_changes"].  With [a.py] staged and [notes.txt] untracked it does
    not: the first call commits; [git status] then prints
    [nothing added to commit but untracked files present], in which the
    marker [nothing to commit] does not occur, so the second call runs
    [git commit] again, which exits with status 1, and reports
    [success = False] with action ["committed"]. *)
Theorem commit_changes_twice_commits_again :
  snd (commit_changes Sim.env "/work/app" "fix bug" (Sim.start Sim.busy))
  = inr [("success", VBool true); ("action", VStr "committed");
         ("commit_message", VStr "fix bug");
         ("output", VStr "1 file changed"); ("error", VNone)]
  /\ (exists st2 d,
        commit_changes Sim.env "/work/app" "fix bug"
          (fst (commit_changes Sim.env "/work/app" "fix bug"
                  (Sim.start Sim.busy))) = (st2, inr d)
        /\ lookup "success" d = Some (VBool false)
        /\ lookup "action" d = Some (VStr "committed")
        /\ trace st2
           = [EvChdir "/work/app"; EvExecute "git status";
              EvExecute (commit_command "fix bug");
              EvChdir "/work/app"; EvExecute "git status";
              EvExecute (commit_command "fix bug")])
  /\ ~ second_commit_no_changes Sim.env "/work/app" "fix bug"
         (Sim.start Sim.busy).
Proof.
  split; [reflexivity | split].
  - do 2 eexists. split; [reflexivity |]. repeat split; reflexivity.
  - intros (st2 & d & Hrun & Hsuccess & _).
    vm_compute in Hrun. inversion Hrun; subst d.
    vm_compute in Hsuccess. discriminate Hsuccess.
Qed.

(* ================================================================== *)
(** ** Exceptions inside the steps *)
(* ================================================================== *)

Section Interruptions.

Context {World : Type} (env : Async.Env World).




End Interruptions.



(* ================================================================== *)
(** ** Stopping at an unconfigured git *)
(* ================================================================== *)

Section Unconfigured.

Context {World : Type} (env : Env World).






End Unconfigured.


(* ================================================================== *)
(** ** The calls each step makes *)
(* ================================================================== *)

Section StepEvents.

Context {World : Type} (env : Env World) (P : Event -> Prop).

Lemma try_except_returns {A : Type} (body : M World A) (f : Exn -> A) st :
  exists st' a, try_except body (fun e => ret (f e)) st = (st', inr a).
Proof.
  unfold try_except, ret. destruct (body st) as [st' [e | a]]; eauto.
Qed.

Lemma emits_check_git_config :
  (forall cmd, In cmd config_commands -> P (EvExecute cmd)) ->
  emits P (fun _ => True) (check_git_config env).
Proof.
  intros Hcmd. unfold check_git_config, check_git_config_body.
  apply emits_try; [| intros e; now apply emits_ret].
  eapply emits_bind; [apply emits_execute, Hcmd; simpl; auto |].
  intros result _. destruct (negb (exit_ok result)); [now apply emits_ret |].
  eapply emits_bind; [apply emits_execute, Hcmd; simpl; auto |].
  intros username_result _.
  eapply emits_bind; [apply emits_execute, Hcmd; simpl; auto |].
  intros email_result _. now apply emits_ret.
Qed.

Lemma emits_makedirs path :
  P (EvMakedirs path) -> emits P (fun _ => True) (os_makedirs env path).
Proof.
  intros Hp st. destruct (fs_makedirs env path (world st)) as [w r] eqn:Hrun.
  exists (mkState w (trace st ++ [EvMakedirs path])), r, [EvMakedirs path].
  unfold os_makedirs. rewrite Hrun. repeat split; auto.
Qed.

Lemma emits_path_exists path :
  emits P (fun _ => True) (os_path_exists env path).
Proof.
  intros st. exists st, (inr (fs_exists env path (world st))), [].
  unfold os_path_exists.
  split; [reflexivity | split; [now rewrite app_nil_r | split; [constructor |]]].
  trivial.
Qed.

(** A clone step that reports success also reports the repository path, a
    string: the handler's [clone_result["repo_path"]] is then a path. *)
Lemma emits_clone_repository repo_url directory :
  P (EvMakedirs directory) ->
  (forall path, P (EvChdir path)) ->
  P (EvExecute "git pull") ->
  P (EvExecute ("git clone " +++ repo_url)) ->
  emits P
    (fun d =>
       forall flag, lookup "success" d = Some flag -> truthy flag = true ->
                    lookup "repo_path" d
                    = Some (VStr (PyStr.path_join directory
                                    (derive_repo_name repo_url))))
    (clone_repository env repo_url directory).
Proof.
  intros Hmk Hcd Hpull Hclone. unfold clone_repository, clone_repository_body.
  apply emits_try.
  2:{ intros e. apply emits_ret. intros flag Hflag Htrue.
      inversion Hflag; subst flag. discriminate Htrue. }
  eapply emits_bind.
  { unfold ensure_directory.
    eapply emits_bind; [apply emits_path_exists |]. intros dir_exists _.
    destruct (negb dir_exists);
      [apply emits_makedirs, Hmk | now apply (emits_ret _ (fun _ => True))]. }
  intros _ _.
  eapply emits_bind; [apply emits_path_exists |]. intros repo_exists _.
  destruct repo_exists.
  - eapply emits_bind; [apply emits_chdir, Hcd |]. intros _ _.
    eapply emits_bind; [apply emits_execute, Hpull |]. intros pull_result _.
    apply emits_ret. reflexivity.
  - eapply emits_bind; [apply emits_chdir, Hcd |]. intros _ _.
    eapply emits_bind; [apply emits_execute, Hclone |]. intros clone_result _.
    apply emits_ret. reflexivity.
Qed.

Lemma emits_add_each files :
  (forall file, In file files -> P (EvExecute ("git add " +++ file))) ->
  forall results, emits P (fun _ => True) (add_each env files results).
Proof.
  induction files as [| file files IH]; intros Hfiles results;
    cbn [add_each].
  - now apply emits_ret.
  - eapply emits_bind; [apply emits_execute, Hfiles; now left |].
    intros result _. apply IH. intros f Hin. apply Hfiles. now right.
Qed.

Lemma emits_stage_changes repo_path specific_files :
  P (EvChdir repo_path) ->
  P (EvExecute "git status") ->
  P (EvExecute "git add .") ->
  (forall file, In file (get_default specific_files []) ->
                P (EvExecute ("git add " +++ file))) ->
  emits P (fun d => In (keys d) stage_result_keys)
    (stage_changes env repo_path specific_files).
Proof.
  intros Hcd Hstatus Hall Hfiles. unfold stage_changes, stage_changes_body.
  apply emits_try; [| intros e; apply emits_ret; simpl; auto].
  eapply emits_bind; [apply emits_chdir, Hcd |]. intros _ _.
  eapply emits_bind; [apply emits_execute, Hstatus |]. intros status_before _.
  destruct specific_files as [[| file files] |].
  - eapply emits_bind; [apply emits_execute, Hall |].
    intros result _. apply emits_ret. simpl; auto.
  - eapply emits_bind; [apply emits_add_each, Hfiles |].
    intros results _. apply emits_ret. simpl; auto.
  - eapply emits_bind; [apply emits_execute, Hall |].
    intros result _. apply emits_ret. simpl; auto.
Qed.

Lemma emits_commit_changes repo_path commit_message :
  P (EvChdir repo_path) ->
  P (EvExecute "git status") ->
  P (EvExecute (commit_command commit_message)) ->
  emits P (fun _ => True) (commit_changes env repo_path commit_message).
Proof.
  intros Hcd Hstatus Hcommit. unfold commit_changes, commit_changes_body.
  apply emits_try; [| intros e; now apply emits_ret].
  eapply emits_bind; [apply emits_chdir, Hcd |]. intros _ _.
  eapply emits_bind; [apply emits_execute, Hstatus |]. intros status_result _.
  destruct (PyStr.contains nothing_marker (stdout status_result));
    [now apply emits_ret |].
  eapply emits_bind; [apply emits_execute, Hcommit |].
  intros result _. now apply emits_ret.
Qed.

Lemma emits_push_changes repo_path branch_name :
  P (EvChdir repo_path) ->
  P (EvExecute ("git push origin " +++ branch_name)) ->
  emits P (fun _ => True) (push_changes env repo_path branch_name).
Proof.
  intros Hcd Hpush. unfold push_changes, push_changes_body.
  apply emits_try; [| intros e; now apply emits_ret].
  eapply emits_bind; [apply emits_chdir, Hcd |]. intros _ _.
  eapply emits_bind; [apply emits_execute, Hpush |].
  intros result _. now apply emits_ret.
Qed.

(** Steps 3 to 5: their calls, and the ["clone"] entry of a 200 report. *)
Lemma emits_stage_commit_push repo_url commit_message branch_name
  specific_files git_config clone repo_path :
  P (EvChdir repo_path) ->
  P (EvExecute "git status") ->
  P (EvExecute "git add .") ->
  (forall file, In file (get_default specific_files []) ->
                P (EvExecute ("git add " +++ file))) ->
  P (EvExecute (commit_command commit_message)) ->
  P (EvExecute ("git push origin " +++ branch_name)) ->
  emits P
    (fun response =>
       status response = 200 -> reported_clone response = Some clone)
    (stage_commit_push env repo_url commit_message branch_name
       specific_files git_config clone repo_path).
Proof.
  intros Hcd Hstatus Hall Hfiles Hcommit Hpush. unfold stage_commit_push.
  eapply emits_bind; [now apply emits_stage_changes |]. intros stage_result _.
  eapply emits_bind; [apply emits_getitem |]. intros stage_ok _.
  destruct (negb (truthy stage_ok));
    [apply emits_ret; intros H; discriminate H |].
  eapply emits_bind; [now apply emits_commit_changes |].
  intros commit_result _.
  eapply emits_bind; [apply emits_getitem |]. intros commit_ok _.
  destruct (negb (truthy commit_ok));
    [apply emits_ret; intros H; discriminate H |].
  eapply emits_bind; [now apply emits_push_changes |].
  intros push_result _.
  eapply emits_bind; [apply emits_getitem |]. intros push_ok _.
  destruct (negb (truthy push_ok));
    [apply emits_ret; intros H; discriminate H |].
  apply emits_ret. intros _. reflexivity.
Qed.

End StepEvents.

(* ================================================================== *)
(** ** Requests without a repository URL *)
(* ================================================================== *)

(** None of the events of a direct run belongs to the clone-or-pull step. *)
Lemma direct_event_not_clone dir commit_message branch_name specific_files ev :
  direct_event dir commit_message branch_name specific_files ev ->
  clone_or_pull_event ev = false.
Proof.
  destruct ev as [cmd | path | path]; cbn [direct_event clone_or_pull_event];
    [| intros _; reflexivity | intros []].
  intros [Hcfg | [-> | [-> | [(file & _ & ->) | [-> | ->]]]]];
    try reflexivity.
  simpl in Hcfg. destruct Hcfg as [<- | [<- | [<- | []]]]; reflexivity.
Qed.

Section DirectRequests.

Context {World : Type} (env : Env World).

Lemma bind_getcwd {A : Type} (k : string -> M World A) st :
  bind (os_getcwd env) k st = k (fs_getcwd env (world st)) st.
Proof. reflexivity. Qed.

Lemma try_except_ext {A : Type} (m m' : M World A) h st :
  m st = m' st -> try_except m h st = try_except m' h st.
Proof. intros Heq. unfold try_except. now rewrite Heq. Qed.

(** C3. A request without [repo_url] is served inside [clone_directory]
    (the current directory when the request gives none): the handler always
    answers; every [os.chdir] it makes goes to that directory; besides the
    configuration queries it runs only [git status], [git add],
    [git commit] and [git push]; it creates no directory and runs neither
    [git pull] nor [git clone]; a 200 report shows ["Skipped"] under
    ["clone"]; and once git is configured the answer is that of staging,
    committing and pushing in that directory. *)
Theorem github_push_without_repo_url request st :
  req_repo_url request = None ->
  let dir :=
    get_default (req_clone_directory request) (fs_getcwd env (world st)) in
  let commit_message :=
    get_default (req_commit_message request) "Automated commit via MCP agent" in
  let branch_name := get_default (req_branch_name request) "main" in
  let specific_files := req_specific_files request in
  (exists st' response evs,
      github_push env request st = (st', inr response)
      /\ trace st' = trace st ++ evs
      /\ Forall (direct_event dir commit_message branch_name specific_files) evs
      /\ Forall (fun ev => clone_or_pull_event ev = false) evs
      /\ (status response = 200 ->
          reported_clone response = Some (VStr "Skipped")))
  /\ (forall st1 git_config flag,
        check_git_config env st = (st1, inr git_config) ->
        lookup "is_configured" git_config = Some flag ->
        truthy flag = true ->
        github_push env request st
        = try_except
            (stage_commit_push env None commit_message branch_name
               specific_files git_config (VStr "Skipped") dir)
            (fun e => ret (mkResponse 500 (error_body e))) st1).
Proof.
  destruct request as [repo_url clone_directory message branch files].
  cbn [req_repo_url req_clone_directory req_commit_message req_branch_name
       req_specific_files].
  intros ->.
  set (dir := get_default clone_directory (fs_getcwd env (world st))).
  set (commit_message := get_default message "Automated commit via MCP agent").
  set (branch_name := get_default branch "main").
  unfold github_push, github_push_body.
  cbn [req_repo_url req_clone_directory req_commit_message req_branch_name
       req_specific_files url_given option_map].
  rewrite (try_except_ext _ _ _ _ (bind_getcwd _ st)).
  fold dir commit_message branch_name.
  set (P := direct_event dir commit_message branch_name files).
  split.
  - match goal with
    | |- context [try_except ?m ?h st] =>
        assert (Hemits :
                  emits P
                    (fun response =>
                       status response = 200 ->
                       reported_clone response = Some (VStr "Skipped"))
                    (try_except m h));
        [| destruct (try_except_returns m
                       (fun e => mkResponse 500 (error_body e)) st)
             as (st' & response & Hrun);
           destruct (Hemits st) as (st'' & r & evs & Hrun' & Htrace & Hevs & Hq) ]
    end.
    + apply emits_try;
        [| intros e; apply emits_ret; intros H; discriminate H].
      eapply emits_bind;
        [apply (emits_check_git_config env P); intros cmd Hin; now left |].
      intros git_config _.
      eapply emits_bind; [apply emits_getitem |]. intros flag _.
      destruct (negb (truthy flag));
        [apply emits_ret; intros H; discriminate H |].
      apply emits_stage_commit_push; cbn [P direct_event]; auto 7.
      intros file Hin. right. right. right. left. now exists file.
    + rewrite Hrun in Hrun'. inversion Hrun'; subst st'' r.
      exists st', response, evs.
      repeat split; auto.
      eapply Forall_impl; [| exact Hevs].
      intros ev. apply direct_event_not_clone.
  - intros st1 git_config flag Hcheck Hflag Htruthy.
    unfold try_except at 1.
    rewrite (bind_inr _ _ _ _ _ Hcheck).
    unfold getitem at 1. rewrite Hflag.
    unfold bind at 1, ret at 1. rewrite Htruthy. reflexivity.
Qed.

End DirectRequests.

(** C3 on the simulation: no [repo_url], [clone_directory = /work/app]. *)
Lemma github_push_without_repo_url_witness :
  github_push Sim.env
    (mkRequest None (Some "/work/app") (Some "fix bug") None None)
    (Sim.start Sim.edited)
  = try_except
      (stage_commit_push Sim.env None "fix bug" "main" None
         [("is_configured", VBool true); ("git_installed", VBool true);
          ("username", VStr "Ada"); ("email", VStr "ada@example.com")]
         (VStr "Skipped") "/work/app")
      (fun e => ret (mkResponse 500 (error_body e)))
      (mkState Sim.edited
         [EvExecute "git --version"; EvExecute "git config user.name";
          EvExecute "git config user.email"])
  /\ trace (fst (github_push Sim.env
                   (mkRequest None (Some "/work/app") (Some "fix bug")
                      None None)
                   (Sim.start Sim.edited)))
     = [EvExecute "git --version"; EvExecute "git config user.name";
        EvExecute "git config user.email";
        EvChdir "/work/app"; EvExecute "git status"; EvExecute "git add .";
        EvChdir "/work/app"; EvExecute "git status";
        EvExecute (commit_command "fix bug");
        EvChdir "/work/app"; EvExecute "git push origin main"].
Proof.
  split; [| reflexivity].
  destruct (github_push_without_repo_url Sim.env
              (mkRequest None (Some "/work/app") (Some "fix bug") None None)
              (Sim.start Sim.edited) eq_refl) as [_ Hdirect].
  exact (Hdirect _ _ (VBool true) eq_refl eq_refl eq_refl).
Defined.

(* ================================================================== *)
(** ** The status snapshot of the staging step *)
(* ================================================================== *)

Section StatusSnapshot.

Context {World : Type} (env : Env World) (f : ProcResult -> ProcResult).

(** Only [git status] is answered differently by [with_status]. *)
Lemma terminal_execute_with_status cmd st :
  String.eqb cmd "git status" = false ->
  terminal_execute (with_status env f) cmd st = terminal_execute env cmd st.
Proof.
  intros Hcmd. unfold terminal_execute. cbn [run_command with_status].
  now rewrite Hcmd.
Qed.

Lemma add_each_with_status files :
  forall results st,
    add_each (with_status env f) files results st
    = add_each env files results st.
Proof.
  induction files as [| file files IH]; intros results st; cbn [add_each];
    [reflexivity |].
  unfold bind. rewrite terminal_execute_with_status by reflexivity.
  destruct (terminal_execute env ("git add " +++ file) st) as [st' [e | r]];
    [reflexivity | apply IH].
Qed.

Lemma bind_ext {A B : Type} (m m' : M World A) (k k' : A -> M World B) st :
  m st = m' st ->
  (forall a st', k a st' = k' a st') ->
  bind m k st = bind m' k' st.
Proof.
  intros Hm Hk. unfold bind. rewrite Hm.
  destruct (m' st) as [st' [e | a]]; [reflexivity | apply Hk].
Qed.

(** A continuation that ignores the snapshot runs the same after either
    answer. *)
Lemma bind_status {B : Type} (k k' : ProcResult -> M World B) st :
  (forall a b st', k a st' = k' b st') ->
  bind (terminal_execute (with_status env f) "git status") k st
  = bind (terminal_execute env "git status") k' st.
Proof.
  intros Hk. unfold bind, terminal_execute.
  cbn [run_command with_status String.eqb Ascii.eqb Bool.eqb].
  destruct (run_command env "git status" (world st)) as [w2 [e | snapshot]];
    [reflexivity | apply Hk].
Qed.

(** Whatever [git status] answers, short of raising, [stage_changes] ends
    in the same state with the same dictionary. *)
Lemma stage_changes_with_status repo_path specific_files st :
  stage_changes (with_status env f) repo_path specific_files st
  = stage_changes env repo_path specific_files st.
Proof.
  unfold stage_changes. apply try_except_ext. unfold stage_changes_body.
  apply bind_ext; [reflexivity |]. intros _ st1.
  apply bind_status. intros _ _ st2.
  destruct specific_files as [[| file files] |]; apply bind_ext;
    try (intros a st'; reflexivity).
  - now apply terminal_execute_with_status.
  - apply add_each_with_status.
  - now apply terminal_execute_with_status.
Qed.

(** C10, amended. [stage_changes] asks for [git status] right after
    entering the repository and before any add, but the dictionary it
    returns never holds the snapshot: its keys are those of one of the three
    dictionaries the step builds.  The exit status and the output of the
    snapshot do not influence the result. *)
Theorem stage_changes_status_snapshot repo_path specific_files st :
  stage_changes (with_status env f) repo_path specific_files st
  = stage_changes env repo_path specific_files st
  /\ (exists st' d,
        stage_changes env repo_path specific_files st = (st', inr d)
        /\ In (keys d) stage_result_keys)
  /\ (forall w1,
        fs_chdir env repo_path (world st) = (w1, inr tt) ->
        exists evs,
          trace (fst (stage_changes env repo_path specific_files st))
          = trace st ++ EvChdir repo_path :: EvExecute "git status" :: evs).
Proof.
  split; [apply stage_changes_with_status | split].
  - destruct (try_except_returns (stage_changes_body env repo_path specific_files)
                step_failure st) as (st' & d & Hrun).
    fold (stage_changes env repo_path specific_files) in Hrun.
    destruct (emits_stage_changes env (fun _ => True) repo_path specific_files
                I I I (fun _ _ => I) st)
      as (st'' & r & evs & Hrun' & _ & _ & Hkeys).
    rewrite Hrun in Hrun'. inversion Hrun'; subst st'' r.
    exists st', d. split; [exact Hrun | now apply Hkeys].
  - intros w1 Hcd.
    unfold stage_changes, stage_changes_body, try_except.
    rewrite (bind_inr _ _ _ _ _ (os_chdir_run env _ _ _ _ Hcd)).
    unfold bind at 1. unfold terminal_execute at 1. cbn [world trace].
    destruct (run_command env "git status" w1) as [w2 [e | snapshot]].
    + exists []. cbn [fst trace ret]. now rewrite <- app_assoc.
    + set (st2 := mkState w2 _).
      assert (Hrest :
                forall m : M World dict,
                  emits (fun _ => True) (fun _ => True) m ->
                  exists evs,
                    trace (fst (let (st', r) := m st2 in
                                match r with
                                | inl e => ret (step_failure e) st'
                                | inr a => (st', inr a)
                                end))
                    = trace st ++ EvChdir repo_path
                        :: EvExecute "git status" :: evs).
      { intros m Hm.
        destruct (Hm st2) as (st3 & r & evs & Hrun & Htrace & _).
        exists evs. rewrite Hrun.
        destruct r as [e | d]; cbn [fst ret]; rewrite Htrace;
          unfold st2; cbn [trace]; now rewrite <- !app_assoc. }
      destruct specific_files as [[| file files] |]; apply Hrest.
      * eapply emits_bind; [now apply emits_execute |].
        intros result _. now apply emits_ret.
      * eapply emits_bind; [now apply emits_add_each |].
        intros results _. now apply emits_ret.
      * eapply emits_bind; [now apply emits_execute |].
        intros result _. now apply emits_ret.
Qed.

End StatusSnapshot.

(** C10 on the simulation: a snapshot with its exit status and texts
    overwritten leaves the result of the step unchanged. *)
Lemma stage_changes_status_snapshot_witness :
  stage_changes
    (with_status Sim.env (fun _ => mkProc 1 "unreadable" "fatal"))
    "/work/app" None (Sim.start Sim.busy)
  = stage_changes Sim.env "/work/app" None (Sim.start Sim.busy)
  /\ trace (fst (stage_changes Sim.env "/work/app" None (Sim.start Sim.busy)))
     = [EvChdir "/work/app"; EvExecute "git status"; EvExecute "git add ."].
Proof.
  split; [| reflexivity].
  exact (proj1 (stage_changes_status_snapshot Sim.env
                  (fun _ => mkProc 1 "unreadable" "fatal")
                  "/work/app" None (Sim.start Sim.busy))).
Defined.

(** C10 as stated fails on the simulation: the snapshot reads
    [Changes to be committed], the step stages everything and succeeds, and
    the dictionary it returns holds its four usual entries, none of which
    carries the snapshot. *)
Lemma stage_changes_status_snapshot_counterexample :
  run_command Sim.env "git status"
    (Sim.set_paths Sim.busy "/work/app" (Sim.paths Sim.busy))
  = (Sim.set_paths Sim.busy "/work/app" (Sim.paths Sim.busy),
     inr (mkProc 0 (Sim.status_text Sim.busy) ""))
  /\ snd (stage_changes Sim.env "/work/app" None (Sim.start Sim.busy))
     = inr [("success", VBool true); ("action", VStr "staged_all");
            ("output", VStr ""); ("error", VNone)]
  /\ mentions (Sim.status_text Sim.busy)
       (VDict [("success", VBool true); ("action", VStr "staged_all");
               ("output", VStr ""); ("error", VNone)]) = false
  /\ ~ snapshot_in_result Sim.env "/work/app" None (Sim.start Sim.busy).
Proof.
  split; [reflexivity | split; [reflexivity | split; [reflexivity |]]].
  intros Hin.
  specialize (Hin _ _ _ _ _ eq_refl eq_refl eq_refl).
  discriminate Hin.
Qed.

(* ================================================================== *)
(** ** A whole request *)
(* ================================================================== *)

(** A request for [https://example.com/org/app.git] on a machine with an
    empty [/work]: the repository is cloned as [app], everything is staged,
    the clean tree needs no commit, and [main] is pushed. *)
Example github_push_fresh_clone :
  let request :=
    mkRequest (Some "https://example.com/org/app.git") None
      (Some "fix bug") (Some "main") None in
  trace (fst (github_push Sim.env request (Sim.start Sim.fresh)))
  = [EvExecute "git --version"; EvExecute "git config user.name";
     EvExecute "git config user.email";
     EvChdir "/work"; EvExecute "git clone https://example.com/org/app.git";
     EvChdir "/work/app"; EvExecute "git status"; EvExecute "git add .";
     EvChdir "/work/app"; EvExecute "git status";
     EvChdir "/work/app"; EvExecute "git push origin main"]
  /\ option_map status
       (match snd (github_push Sim.env request (Sim.start Sim.fresh)) with
        | inr response => Some response
        | inl _ => None
        end) = Some 200.
Proof. split; reflexivity. Qed.

(* ================================================================== *)
(** ** Further properties: the repository name and path *)
(* ================================================================== *)

Lemma prefix_char c a s :
  String.prefix (String c "") (String a s)
  = if ascii_dec c a then true else false.
Proof.
  cbn [String.prefix]. destruct (ascii_dec c a); [| reflexivity].
  now destruct s.
Qed.

Lemma contains_char_cons c a s :
  PyStr.contains (String c "") (String a s)
  = (if ascii_dec c a then true else false) || PyStr.contains (String c "") s.
Proof. cbn [PyStr.contains]. now rewrite prefix_char. Qed.

Lemma split_not_nil sep s : PyStr.split sep s <> [].
Proof.
  destruct s as [| a s]; cbn [PyStr.split]; [discriminate |].
  destruct (Ascii.eqb a sep); [discriminate |].
  destruct (PyStr.split sep s); discriminate.
Qed.

(** No segment ends the list with a separator in it. *)
Lemma last_segment_no_sep sep s :
  PyStr.contains (String sep "") (PyStr.last_segment (PyStr.split sep s))
  = false.
Proof.
  unfold PyStr.last_segment.
  induction s as [| a s IH]; [reflexivity |].
  cbn [PyStr.split].
  pose proof (split_not_nil sep s) as Hne.
  destruct (Ascii.eqb a sep) eqn:Ha.
  - destruct (PyStr.split sep s) as [| seg rest]; [contradiction |].
    exact IH.
  - destruct (PyStr.split sep s) as [| seg rest]; [contradiction |].
    destruct rest as [| seg' rest]; [| exact IH].
    cbn [last] in *. rewrite contains_char_cons, IH.
    destruct (ascii_dec sep a) as [-> |]; [| reflexivity].
    now rewrite Ascii.eqb_refl in Ha.
Qed.

(** Deleting occurrences of [old] brings in no character that was not
    there. *)
Lemma replace_from_keeps_absent c old s :
  forall skip,
    PyStr.contains (String c "") s = false ->
    PyStr.contains (String c "") (PyStr.replace_from skip old "" s) = false.
Proof.
  induction s as [| a s IH]; intros skip Habsent; [reflexivity |].
  rewrite contains_char_cons in Habsent.
  apply orb_false_iff in Habsent. destruct Habsent as [Hhead Htail].
  cbn [PyStr.replace_from]. destruct skip as [| skip]; [| now apply IH].
  destruct (String.prefix old (String a s)).
  - cbn [String.append]. now apply IH.
  - rewrite contains_char_cons, Hhead. now apply IH.
Qed.

Lemma derive_repo_name_no_slash repo_url :
  PyStr.contains "/" (derive_repo_name repo_url) = false.
Proof.
  unfold derive_repo_name, PyStr.replace.
  apply replace_from_keeps_absent, last_segment_no_sep.
Qed.

(** X1. Whatever the URL, the derived repository name holds no ['/'], so
    [os.path.join] never lets it replace the target directory: the
    repository path is the directory followed by the name, with one ['/']
    in between unless the directory is empty or already ends in one. *)
Theorem repo_path_inside_directory repo_url directory :
  PyStr.contains "/" (derive_repo_name repo_url) = false
  /\ PyStr.path_join directory (derive_repo_name repo_url)
     = if negb (PyStr.nonempty directory) || PyStr.endswith directory "/"
       then directory +++ derive_repo_name repo_url
       else directory +++ "/" +++ derive_repo_name repo_url.
Proof.
  pose proof (derive_repo_name_no_slash repo_url) as Hname.
  split; [exact Hname |].
  unfold PyStr.path_join, PyStr.startswith.
  destruct (derive_repo_name repo_url) as [| a name]; [reflexivity |].
  rewrite contains_char_cons in Hname.
  apply orb_false_iff in Hname. destruct Hname as [Hhead _].
  now rewrite prefix_char, Hhead.
Qed.

(** A string that ends in the separator splits into at least two segments,
    the last of which is empty. *)
Lemma split_trailing_sep sep s :
  exists seg rest,
    PyStr.split sep (s +++ String sep "") = seg :: rest
    /\ rest <> []
    /\ last rest "" = "".
Proof.
  induction s as [| a s (seg & rest & Hsplit & Hrest & Hlast)].
  - cbn [String.append PyStr.split]. rewrite Ascii.eqb_refl.
    exists "", [""]. repeat split. discriminate.
  - cbn [String.append PyStr.split]. rewrite Hsplit.
    destruct (Ascii.eqb a sep).
    + exists "", (seg :: rest). repeat split; [discriminate |].
      destruct rest as [| seg' rest]; [contradiction | exact Hlast].
    + exists (String a seg), rest. now repeat split.
Qed.

(** X2. A URL that ends in ['/'] has an empty last segment, so its derived
    repository name is empty and the repository path is the target
    directory itself, written with a trailing ['/']. *)
Theorem trailing_slash_empty_name repo_url directory :
  derive_repo_name (repo_url +++ "/") = ""
  /\ PyStr.path_join directory (derive_repo_name (repo_url +++ "/"))
     = if negb (PyStr.nonempty directory) || PyStr.endswith directory "/"
       then directory
       else directory +++ "/".
Proof.
  assert (Hname : derive_repo_name (repo_url +++ "/") = "").
  { unfold derive_repo_name, PyStr.last_segment.
    destruct (split_trailing_sep "/" repo_url)
      as (seg & rest & Hsplit & Hrest & Hlast).
    rewrite Hsplit. destruct rest as [| seg' rest]; [contradiction |].
    cbn [last] in *. now rewrite Hlast. }
  split; [exact Hname |].
  rewrite Hname. unfold PyStr.path_join, PyStr.startswith.
  cbn [String.prefix].
  destruct (negb (PyStr.nonempty directory) || PyStr.endswith directory "/").
  - induction directory as [| a d IH]; [reflexivity |].
    cbn [String.append]. now rewrite IH.
  - reflexivity.
Qed.

(* ================================================================== *)
(** ** Further properties: the steps one by one *)
(* ================================================================== *)

Section StepsOneByOne.

Context {World : Type} (env : Env World).

(** X4. When [git --version] exits with a non-zero status, the handler
    answers 400 with [git_installed = False] and the error
    ["Git is not installed"], having run that one command only: the
    identity is not queried and no step is started. *)
Theorem github_push_git_missing request st w1 result :
  run_command env "git --version" (world st) = (w1, inr result) ->
  exit_ok result = false ->
  github_push env request st
  = (mkState w1 (trace st ++ [EvExecute "git --version"]),
     inr (mkResponse 400
            (failure_body
               "Git is not properly configured. Please configure Git first."
               [("is_configured", VBool false);
                ("git_installed", VBool false);
                ("error", VStr "Git is not installed")]))).
Proof.
  intros Hversion Hexit.
  unfold github_push, github_push_body, try_except, bind, os_getcwd,
    check_git_config, check_git_config_body, try_except, bind.
  rewrite (terminal_execute_run env _ _ _ _ Hversion).
  now rewrite Hexit.
Qed.

(** X5. An exception raised by one of the identity queries is reported
    through the same [except] clause as a missing git: the check returns
    [is_configured = False] and [git_installed = False] with the message of
    the exception, although [git --version] had succeeded. *)
Theorem check_git_config_query_raises st w1 w2 version e :
  run_command env "git --version" (world st) = (w1, inr version) ->
  exit_ok version = true ->
  run_command env "git config user.name" w1 = (w2, inl e) ->
  check_git_config env st
  = (mkState w2
       (trace st ++ [EvExecute "git --version";
                     EvExecute "git config user.name"]),
     inr [("is_configured", VBool false);
          ("git_installed", VBool false);
          ("error", VStr e)]).
Proof.
  intros Hversion Hexit Hname.
  unfold check_git_config, check_git_config_body.
  erewrite try_except_inl; [reflexivity |].
  rewrite (bind_inr _ _ _ _ _ (terminal_execute_run env _ _ _ _ Hversion)).
  rewrite Hexit. cbn [negb].
  erewrite bind_inl by (apply terminal_execute_run; exact Hname).
  cbn [trace]. now rewrite <- app_assoc.
Qed.

(** X6. When the target directory is missing and cannot be created, the
    clone step reports the exception of [os.makedirs] as its failure:
    nothing is entered, pulled or cloned. *)
Theorem clone_repository_makedirs_raises repo_url directory st w1 e :
  fs_exists env directory (world st) = false ->
  fs_makedirs env directory (world st) = (w1, inl e) ->
  clone_repository env repo_url directory st
  = (mkState w1 (trace st ++ [EvMakedirs directory]),
     inr [("success", VBool false); ("error", VStr e)]).
Proof.
  intros Hmissing Hmakedirs.
  unfold clone_repository, clone_repository_body, ensure_directory,
    try_except, bind, os_path_exists, os_makedirs.
  rewrite Hmissing. cbn [negb]. now rewrite Hmakedirs.
Qed.

(** X7. [push_changes] makes one attempt: it enters the repository and
    runs [git push origin branch] at most once.  It reports success exactly
    when the directory could be entered and that one command returned with
    exit status zero. *)
Theorem push_changes_single_attempt repo_path branch_name st :
  exists st' d flag,
    push_changes env repo_path branch_name st = (st', inr d)
    /\ lookup "success" d = Some (VBool flag)
    /\ (trace st' = trace st ++ [EvChdir repo_path]
        \/ trace st'
           = trace st ++ [EvChdir repo_path;
                          EvExecute (push_command branch_name)])
    /\ (flag = true <->
        exists w1 w2 result,
          fs_chdir env repo_path (world st) = (w1, inr tt)
          /\ run_command env (push_command branch_name) w1
             = (w2, inr result)
          /\ returncode result = 0).
Proof.
  unfold push_changes, push_changes_body, try_except, bind, os_chdir,
    terminal_execute, ret, push_command.
  destruct (fs_chdir env repo_path (world st)) as [w1 [e | []]];
    cbn [world trace].
  - do 3 eexists. split; [reflexivity |]. split; [reflexivity |].
    split; [now left |].
    split; [discriminate |]. intros (w1' & w2 & r & Hcd & _). discriminate.
  - destruct (run_command env ("git push origin " +++ branch_name) w1)
      as [w2 [e | result]] eqn:Hpush.
    + do 3 eexists. split; [reflexivity |]. split; [reflexivity |].
      split; [right; cbn [trace]; now rewrite <- app_assoc |].
      split; [discriminate |].
      intros (w1' & w2' & r & Hcd & Hrun & _).
      inversion Hcd; subst w1'. congruence.
    + do 3 eexists. split; [reflexivity |]. split; [reflexivity |].
      split; [right; cbn [trace]; now rewrite <- app_assoc |].
      unfold exit_ok. split.
      * intros Hflag. exists w1, w2, result.
        split; [reflexivity | split; [exact Hpush | now apply Z.eqb_eq]].
      * intros (w1' & w2' & r & Hcd & Hrun & Hcode).
        inversion Hcd; subst w1'.
        assert (Hr : r = result) by congruence. subst r.
        now apply Z.eqb_eq.
Qed.

(** X8. When the status output lacks the marker, [commit_changes] runs
    [git commit -m "message"] once and reports action ["committed"], with
    success decided by the exit status of that command and the message it
    was given echoed back. *)
Theorem commit_changes_commits repo_path commit_message st w1 w2 w3
  status_result result :
  fs_chdir env repo_path (world st) = (w1, inr tt) ->
  run_command env "git status" w1 = (w2, inr status_result) ->
  PyStr.contains nothing_marker (stdout status_result) = false ->
  run_command env (commit_command commit_message) w2 = (w3, inr result) ->
  commit_changes env repo_path commit_message st
  = (mkState w3
       (trace st ++ [EvChdir repo_path; EvExecute "git status";
                     EvExecute (commit_command commit_message)]),
     inr [("success", VBool (exit_ok result));
          ("action", VStr "committed");
          ("commit_message", VStr commit_message);
          ("output", VStr (stdout result));
          ("error", stderr_if_failed result)]).
Proof.
  intros Hcd Hstatus Hmarker Hcommit.
  unfold commit_changes, commit_changes_body.
  erewrite try_except_inr; [reflexivity |].
  rewrite (bind_inr _ _ _ _ _ (os_chdir_run env _ _ _ _ Hcd)).
  erewrite bind_inr by (apply terminal_execute_run; exact Hstatus).
  rewrite Hmarker.
  erewrite bind_inr by (apply terminal_execute_run; exact Hcommit).
  unfold ret. cbn [trace]. now rewrite <- !app_assoc.
Qed.

(** The loop over the files when an add raises: the exception leaves the
    loop at once. *)
Lemma add_each_raises files :
  forall results st w' e tried,
    first_raising_add env files (world st) = Some (w', e, tried) ->
    add_each env files results st
    = (mkState w'
         (trace st ++ map (fun file => EvExecute ("git add " +++ file)) tried),
       inl e)
    /\ exists rest, files = tried ++ rest.
Proof.
  induction files as [| file files IH]; intros results st w' e tried Hfirst;
    cbn [first_raising_add] in Hfirst; [discriminate |].
  cbn [add_each].
  destruct (run_command env ("git add " +++ file) (world st))
    as [w1 [e1 | r1]] eqn:Hrun.
  - inversion Hfirst; subst w' e tried.
    rewrite (bind_inl _ _ _ _ _ (terminal_execute_run env _ _ _ _ Hrun)).
    split; [reflexivity | now exists files].
  - destruct (first_raising_add env files w1) as [[[w2 e2] tried2] |] eqn:Hrest;
      [| discriminate].
    inversion Hfirst; subst w' e tried.
    rewrite (bind_inr _ _ _ _ _ (terminal_execute_run env _ _ _ _ Hrun)).
    destruct (IH (results ++ [file_result file r1])
                (mkState w1 (trace st ++ [EvExecute ("git add " +++ file)]))
                w2 e2 tried2 Hrest) as [Hloop [rest Hfiles]].
    rewrite Hloop. cbn [trace map]. rewrite <- app_assoc.
    split; [reflexivity |]. exists rest. now rewrite Hfiles.
Qed.

(** X9. When [terminal.execute] raises during the add of one of the
    [specific_files], [stage_changes] stops there: the files after it are
    not attempted, the entries collected for the files before it are
    dropped, and the step returns the failure dictionary with the message
    of the exception.  The adds made before it are not undone. *)
Theorem stage_changes_add_raises repo_path file files st w1 w2 w3 snapshot
  e tried :
  fs_chdir env repo_path (world st) = (w1, inr tt) ->
  run_command env "git status" w1 = (w2, inr snapshot) ->
  first_raising_add env (file :: files) w2 = Some (w3, e, tried) ->
  stage_changes env repo_path (Some (file :: files)) st
  = (mkState w3
       (trace st
        ++ [EvChdir repo_path; EvExecute "git status"]
        ++ map (fun f => EvExecute ("git add " +++ f)) tried),
     inr [("success", VBool false); ("error", VStr e)])
  /\ exists rest, file :: files = tried ++ rest.
Proof.
  intros Hcd Hstatus Hfirst.
  destruct (add_each_raises (file :: files) []
              (mkState w2 ((trace st ++ [EvChdir repo_path])
                           ++ [EvExecute "git status"]))
              w3 e tried Hfirst) as [Hloop Hprefix].
  split; [| exact Hprefix].
  unfold stage_changes, stage_changes_body.
  erewrite try_except_inl; [reflexivity |].
  rewrite (bind_inr _ _ _ _ _ (os_chdir_run env _ _ _ _ Hcd)).
  erewrite bind_inr by (apply terminal_execute_run; exact Hstatus).
  erewrite bind_inl by exact Hloop.
  cbn [trace]. now rewrite <- !app_assoc.
Qed.

End StepsOneByOne.

(** X4 on the simulation: a machine without git. *)
Lemma github_push_git_missing_witness :
  exit_ok (mkProc 127 "" "git: command not found") = false
  /\ github_push Faulty.no_git
       (mkRequest (Some "https://example.com/org/app.git") None
          (Some "fix bug") None None)
       (Sim.start Sim.fresh)
     = (mkState Sim.fresh [EvExecute "git --version"],
        inr (mkResponse 400
               (failure_body
                  "Git is not properly configured. Please configure Git first."
                  [("is_configured", VBool false);
                   ("git_installed", VBool false);
                   ("error", VStr "Git is not installed")]))).
Proof.
  split; [reflexivity |].
  exact (github_push_git_missing Faulty.no_git
           (mkRequest (Some "https://example.com/org/app.git") None
              (Some "fix bug") None None)
           (Sim.start Sim.fresh) _ _ eq_refl eq_refl).
Defined.

(** X5 on the simulation: the terminal is lost at the first identity
    query. *)
Lemma check_git_config_query_raises_witness :
  check_git_config (Faulty.losing "git config user.name")
    (Sim.start Sim.clean)
  = (mkState Sim.clean
       [EvExecute "git --version"; EvExecute "git config user.name"],
     inr [("is_configured", VBool false);
          ("git_installed", VBool false);
          ("error", VStr "terminal closed")]).
Proof.
  exact (check_git_config_query_raises (Faulty.losing "git config user.name")
           (Sim.start Sim.clean) _ _ _ _ eq_refl eq_refl eq_refl).
Defined.

(** X6 on the simulation: [/srv/repos] is missing on a read-only file
    system. *)
Lemma clone_repository_makedirs_raises_witness :
  fs_exists Faulty.read_only "/srv/repos" Sim.fresh = false
  /\ clone_repository Faulty.read_only "https://example.com/org/app.git"
       "/srv/repos" (Sim.start Sim.fresh)
     = (mkState Sim.fresh [EvMakedirs "/srv/repos"],
        inr [("success", VBool false);
             ("error", VStr "[Errno 13] Permission denied: '/srv/repos'")]).
Proof.
  split; [reflexivity |].
  exact (clone_repository_makedirs_raises Faulty.read_only
           "https://example.com/org/app.git" "/srv/repos"
           (Sim.start Sim.fresh) _ _ eq_refl eq_refl).
Defined.

(** X8 on the simulation: [a.py] is staged and gets committed. *)
Lemma commit_changes_commits_witness :
  PyStr.contains nothing_marker (Sim.status_text Sim.busy) = false
  /\ commit_changes Sim.env "/work/app" "fix bug" (Sim.start Sim.busy)
     = (mkState
          (Sim.mkWorld "/work/app" ["/work"; "/work/app"] (Some "Ada")
             (Some "ada@example.com") ["notes.txt"] [])
          [EvChdir "/work/app"; EvExecute "git status";
           EvExecute (commit_command "fix bug")],
        inr [("success", VBool true);
             ("action", VStr "committed");
             ("commit_message", VStr "fix bug");
             ("output", VStr "1 file changed");
             ("error", VNone)]).
Proof.
  split; [reflexivity |].
  exact (commit_changes_commits Sim.env "/work/app" "fix bug"
           (Sim.start Sim.busy) _ _ _ _ _
           eq_refl eq_refl eq_refl eq_refl).
Defined.

(** X9 on the simulation: the terminal is lost at the second of three
    files.  [a.py] stays staged, [c.py] is never tried, and the step
    reports only the exception. *)
Lemma stage_changes_add_raises_witness :
  first_raising_add (Faulty.losing "git add b.py") ["a.py"; "b.py"; "c.py"]
    (Sim.set_paths Faulty.two_edits "/work/app" (Sim.paths Faulty.two_edits))
  = Some (Sim.mkWorld "/work/app" ["/work"; "/work/app"] (Some "Ada")
            (Some "ada@example.com") ["b.py"] ["a.py"],
          "terminal closed", ["a.py"; "b.py"])
  /\ stage_changes (Faulty.losing "git add b.py") "/work/app"
       (Some ["a.py"; "b.py"; "c.py"]) (Sim.start Faulty.two_edits)
     = (mkState
          (Sim.mkWorld "/work/app" ["/work"; "/work/app"] (Some "Ada")
             (Some "ada@example.com") ["b.py"] ["a.py"])
          [EvChdir "/work/app"; EvExecute "git status";
           EvExecute "git add a.py"; EvExecute "git add b.py"],
        inr [("success", VBool false); ("error", VStr "terminal closed")]).
Proof.
  split; [reflexivity |].
  exact (proj1 (stage_changes_add_raises (Faulty.losing "git add b.py")
                  "/work/app" "a.py" ["b.py"; "c.py"]
                  (Sim.start Faulty.two_edits) _ _ _ _ _ _
                  eq_refl eq_refl eq_refl)).
Defined.

(* ================================================================== *)
(** ** Further properties: what every step returns *)
(* ================================================================== *)

(** Discharges [bounded n dir p ev] for the events of the program. *)
Ltac event_ok :=
  split;
  [ cbv beta; vm_compute; lia
  | first [exact I | reflexivity | now left | now right] ].

Lemma bounded_mono n m dir p ev :
  (n <= m)%nat -> bounded n dir p ev -> bounded m dir p ev.
Proof. intros Hle [Hrank Hin]. split; [lia | exact Hin]. Qed.

Lemma Forall_bounded_mono n m dir p evs :
  (n <= m)%nat -> Forall (bounded n dir p) evs -> Forall (bounded m dir p) evs.
Proof.
  intros Hle. apply Forall_impl. intros ev. now apply bounded_mono.
Qed.

Section WhatStepsReturn.

Context {World : Type} (env : Env World).

(** *** Rules for [yields] *)

Lemma yields_ret {A : Type} (R : list Event -> A -> Prop) (a : A) :
  R [] a -> yields (World := World) R (ret a).
Proof.
  intros Ha st. exists st, a, []. unfold ret.
  split; [reflexivity | split; [now rewrite app_nil_r | exact Ha]].
Qed.

Lemma yields_bind {A B : Type} (R1 : list Event -> A -> Prop)
  (R : list Event -> B -> Prop) (m : M World A) (k : A -> M World B) :
  yields R1 m ->
  (forall a evs1, R1 evs1 a -> yields (fun evs2 b => R (evs1 ++ evs2) b) (k a)) ->
  yields R (bind m k).
Proof.
  intros Hm Hk st.
  destruct (Hm st) as (st1 & a & evs1 & Hrun & Htrace & Hr1).
  destruct (Hk a evs1 Hr1 st1) as (st2 & b & evs2 & Hrun2 & Htrace2 & Hr).
  exists st2, b, (evs1 ++ evs2). rewrite (bind_inr _ _ _ _ _ Hrun).
  split; [exact Hrun2 | split; [| exact Hr]].
  now rewrite Htrace2, Htrace, app_assoc.
Qed.

Lemma yields_try {A : Type} (R : list Event -> A -> Prop) (m : M World A) h :
  yields R m -> yields R (try_except m h).
Proof.
  intros Hm st. destruct (Hm st) as (st1 & a & evs & Hrun & Htrace & Hr).
  exists st1, a, evs. now rewrite (try_except_inr _ _ _ _ _ Hrun).
Qed.

Lemma yields_weaken {A : Type} (R R' : list Event -> A -> Prop)
  (m : M World A) :
  yields R m -> (forall evs a, R evs a -> R' evs a) -> yields R' m.
Proof.
  intros Hm Himp st. destruct (Hm st) as (st1 & a & evs & Hrun & Htrace & Hr).
  exists st1, a, evs. auto.
Qed.

Lemma yields_getitem k d v :
  lookup k d = Some v ->
  yields (World := World) (fun evs a => evs = [] /\ a = v) (getitem k d).
Proof. intros Hk. unfold getitem. rewrite Hk. now apply yields_ret. Qed.

(** A computation that only emits events in [P] and always returns. *)
Lemma emits_yields {A : Type} (P : Event -> Prop) (Q : A -> Prop)
  (m : M World A) :
  emits P Q m ->
  (forall st, exists st' a, m st = (st', inr a)) ->
  yields (fun evs a => Forall P evs /\ Q a) m.
Proof.
  intros Hemits Hreturns st.
  destruct (Hreturns st) as (st' & a & Hrun).
  destruct (Hemits st) as (st'' & r & evs & Hrun' & Htrace & Hevs & Hq).
  rewrite Hrun in Hrun'. inversion Hrun'; subst st'' r.
  exists st', a, evs. auto.
Qed.

(** *** The five steps *)

Section StepByStep.

Variables dir p : string.

Lemma check_git_config_yields :
  yields
    (fun evs git_config =>
       Forall (bounded 0 dir p) evs
       /\ exists flag, lookup "is_configured" git_config = Some (VBool flag))
    (check_git_config env).
Proof.
  apply emits_yields; [| intros st; apply try_except_returns].
  unfold check_git_config, check_git_config_body.
  apply emits_try; [| intros e; apply emits_ret; now eexists].
  eapply emits_bind; [apply emits_execute; event_ok |].
  intros result _.
  destruct (negb (exit_ok result)); [apply emits_ret; now eexists |].
  eapply emits_bind; [apply emits_execute; event_ok |].
  intros username_result _.
  eapply emits_bind; [apply emits_execute; event_ok |].
  intros email_result _. apply emits_ret. now eexists.
Qed.

Lemma add_each_bounded files :
  forall results,
    emits (bounded 3 dir p) (fun _ => True) (add_each env files results).
Proof.
  induction files as [| file files IH]; intros results; cbn [add_each].
  - now apply emits_ret.
  - eapply emits_bind; [apply emits_execute; event_ok |].
    intros result _. apply IH.
Qed.

Lemma stage_changes_yields specific_files :
  yields
    (fun evs d =>
       Forall (bounded 3 dir p) evs
       /\ exists flag, lookup "success" d = Some (VBool flag))
    (stage_changes env p specific_files).
Proof.
  apply emits_yields; [| intros st; apply try_except_returns].
  unfold stage_changes, stage_changes_body.
  apply emits_try; [| intros e; apply emits_ret; now eexists].
  eapply emits_bind; [apply emits_chdir; event_ok |]. intros _ _.
  eapply emits_bind; [apply emits_execute; event_ok |]. intros status_before _.
  destruct specific_files as [[| file files] |].
  - eapply emits_bind; [apply emits_execute; event_ok |].
    intros result _. apply emits_ret. now eexists.
  - eapply emits_bind; [apply add_each_bounded |].
    intros results _. apply emits_ret. now eexists.
  - eapply emits_bind; [apply emits_execute; event_ok |].
    intros result _. apply emits_ret. now eexists.
Qed.

Lemma commit_changes_yields commit_message :
  yields
    (fun evs d =>
       Forall (bounded 4 dir p) evs
       /\ exists flag, lookup "success" d = Some (VBool flag))
    (commit_changes env p commit_message).
Proof.
  apply emits_yields; [| intros st; apply try_except_returns].
  unfold commit_changes, commit_changes_body.
  apply emits_try; [| intros e; apply emits_ret; now eexists].
  eapply emits_bind; [apply emits_chdir; event_ok |]. intros _ _.
  eapply emits_bind; [apply emits_execute; event_ok |]. intros status_result _.
  destruct (PyStr.contains nothing_marker (stdout status_result));
    [apply emits_ret; now eexists |].
  eapply emits_bind; [apply emits_execute; event_ok |].
  intros result _. apply emits_ret. now eexists.
Qed.

(** A push that reports success consisted of entering the repository and
    running the push command, nothing else. *)
Lemma push_changes_yields branch_name :
  yields
    (fun evs d =>
       Forall (bounded 5 dir p) evs
       /\ exists flag,
           lookup "success" d = Some (VBool flag)
           /\ (flag = true ->
               evs = [EvChdir p; EvExecute (push_command branch_name)]))
    (push_changes env p branch_name).
Proof.
  intros st.
  unfold push_changes, push_changes_body, try_except, bind, os_chdir,
    terminal_execute, ret, push_command.
  destruct (fs_chdir env p (world st)) as [w1 [e | []]]; cbn [world trace].
  - do 2 eexists. exists [EvChdir p].
    split; [reflexivity | split; [reflexivity |]].
    split; [repeat constructor; event_ok |].
    exists false. split; [reflexivity | discriminate].
  - destruct (run_command env ("git push origin " +++ branch_name) w1)
      as [w2 [e | result]].
    + do 2 eexists.
      exists [EvChdir p; EvExecute ("git push origin " +++ branch_name)].
      split; [reflexivity | split; [cbn [trace]; now rewrite <- app_assoc |]].
      split; [repeat constructor; event_ok |].
      exists false. split; [reflexivity | discriminate].
    + do 2 eexists.
      exists [EvChdir p; EvExecute ("git push origin " +++ branch_name)].
      split; [reflexivity | split; [cbn [trace]; now rewrite <- app_assoc |]].
      split; [repeat constructor; event_ok |].
      exists (exit_ok result). split; reflexivity.
Qed.

End StepByStep.

Lemma clone_repository_yields repo_url directory :
  yields
    (fun evs d =>
       Forall (bounded 2 directory
                 (PyStr.path_join directory (derive_repo_name repo_url))) evs
       /\ exists flag,
           lookup "success" d = Some (VBool flag)
           /\ (flag = true ->
               lookup "repo_path" d
               = Some (VStr (PyStr.path_join directory
                               (derive_repo_name repo_url)))))
    (clone_repository env repo_url directory).
Proof.
  apply emits_yields; [| intros st; apply try_except_returns].
  unfold clone_repository, clone_repository_body.
  apply emits_try.
  2:{ intros e. apply emits_ret. eexists. split; [reflexivity | discriminate]. }
  eapply emits_bind.
  { unfold ensure_directory.
    eapply emits_bind; [apply emits_path_exists |]. intros dir_exists _.
    destruct (negb dir_exists);
      [apply emits_makedirs | now apply (emits_ret _ (fun _ => True))].
    event_ok. }
  intros _ _.
  eapply emits_bind; [apply emits_path_exists |]. intros repo_exists _.
  destruct repo_exists.
  - eapply emits_bind; [apply emits_chdir; event_ok |]. intros _ _.
    eapply emits_bind; [apply emits_execute; event_ok |].
    intros pull_result _.
    apply emits_ret. eexists. split; reflexivity.
  - eapply emits_bind; [apply emits_chdir; event_ok |]. intros _ _.
    eapply emits_bind; [apply emits_execute; event_ok |].
    intros clone_result _.
    apply emits_ret. eexists. split; reflexivity.
Qed.

End WhatStepsReturn.

(* ================================================================== *)
(** ** Further properties: the handler as a whole *)
(* ================================================================== *)

Lemma handled_failure dir p branch_name evs message details n :
  response_rank (mkResponse 400 (failure_body message details)) = n ->
  Forall (bounded n dir p) evs ->
  handled dir p branch_name evs (mkResponse 400 (failure_body message details)).
Proof.
  intros Hrank Hevs. unfold handled. rewrite Hrank. cbn [status body].
  split; [now right |]. split; [reflexivity |]. split; [exact Hevs |].
  discriminate.
Qed.

Lemma handled_prefix dir p branch_name pre evs response n :
  Forall (bounded n dir p) pre ->
  (n <= response_rank response)%nat ->
  handled dir p branch_name evs response ->
  handled dir p branch_name (pre ++ evs) response.
Proof.
  intros Hpre Hle (Hstatus & Hflag & Hevs & Hpush).
  split; [exact Hstatus |]. split; [exact Hflag |]. split.
  - apply Forall_app. split; [| exact Hevs].
    now apply (Forall_bounded_mono n).
  - intros H200. destruct (Hpush H200) as [evs0 ->].
    exists (pre ++ evs0). now rewrite app_assoc.
Qed.

Section WholeHandler.

Context {World : Type} (env : Env World).

(** Steps 3 to 5, run in [p]. *)
Lemma stage_commit_push_handled dir repo_url commit_message branch_name
  specific_files git_config clone p :
  yields
    (fun evs response =>
       handled dir p branch_name evs response
       /\ (3 <= response_rank response)%nat)
    (stage_commit_push env repo_url commit_message branch_name
       specific_files git_config clone p).
Proof.
  unfold stage_commit_push.
  eapply yields_bind; [apply (stage_changes_yields env dir p) |].
  intros stage_result evs1 (Hevs1 & flag1 & Hflag1).
  eapply yields_bind; [apply (yields_getitem _ _ _ Hflag1) |].
  intros stage_ok nil1 [-> ->]. cbn [truthy].
  destruct flag1; cbn [negb].
  2:{ apply yields_ret. rewrite !app_nil_r.
      split; [| vm_compute; lia].
      now apply (handled_failure _ _ _ _ _ _ 3). }
  eapply yields_bind; [apply (commit_changes_yields env dir p) |].
  intros commit_result evs2 (Hevs2 & flag2 & Hflag2).
  eapply yields_bind; [apply (yields_getitem _ _ _ Hflag2) |].
  intros commit_ok nil2 [-> ->]. cbn [truthy].
  destruct flag2; cbn [negb].
  2:{ apply yields_ret. cbn [app]. rewrite !app_nil_r.
      split; [| vm_compute; lia].
      apply (handled_failure _ _ _ _ _ _ 4); [reflexivity |].
      apply Forall_app. split; [| exact Hevs2].
      apply (Forall_bounded_mono 3); [lia | assumption]. }
  eapply yields_bind; [apply (push_changes_yields env dir p) |].
  intros push_result evs3 (Hevs3 & flag3 & Hflag3 & Hpushed).
  eapply yields_bind; [apply (yields_getitem _ _ _ Hflag3) |].
  intros push_ok nil3 [-> ->]. cbn [truthy].
  assert (Hall : Forall (bounded 5 dir p) (evs1 ++ evs2 ++ evs3)).
  { apply Forall_app. split; [apply (Forall_bounded_mono 3); [lia | assumption] |].
    apply Forall_app. split; [apply (Forall_bounded_mono 4); [lia | assumption] | exact Hevs3]. }
  destruct flag3; cbn [negb]; apply yields_ret; cbn [app];
    rewrite !app_nil_r.
  - split; [| vm_compute; lia].
    split; [now left |]. split; [reflexivity |]. split; [exact Hall |].
    intros _. exists (evs1 ++ evs2).
    rewrite (Hpushed eq_refl). now rewrite <- app_assoc.
  - split; [| vm_compute; lia].
    now apply (handled_failure _ _ _ _ _ _ 5).
Qed.

(** The handler, from any state: it answers, and the answer is [handled]. *)
Lemma github_push_handled request st :
  exists st' response evs,
    github_push env request st = (st', inr response)
    /\ trace st' = trace st ++ evs
    /\ handled
         (get_default (req_clone_directory request) (fs_getcwd env (world st)))
         (handler_repo_path request (fs_getcwd env (world st)))
         (get_default (req_branch_name request) "main")
         evs response.
Proof.
  destruct request as [repo_url clone_directory message branch files].
  unfold handler_repo_path.
  cbn [req_repo_url req_clone_directory req_commit_message req_branch_name
       req_specific_files].
  set (dir := get_default clone_directory (fs_getcwd env (world st))).
  set (branch_name := get_default branch "main").
  unfold github_push, github_push_body.
  cbn [req_repo_url req_clone_directory req_commit_message req_branch_name
       req_specific_files].
  rewrite (try_except_ext _ _ _ _ (bind_getcwd env _ st)).
  fold dir branch_name.
  set (p := match url_given repo_url with
            | Some url => PyStr.path_join dir (derive_repo_name url)
            | None => dir
            end).
  match goal with
  | |- context [try_except ?m ?h st] =>
      assert (Hyields : yields (handled dir p branch_name) (try_except m h))
  end.
  2:{ destruct (Hyields st) as (st' & response & evs & Hrun & Htrace & Hok).
      now exists st', response, evs. }
  apply yields_try.
  eapply yields_bind; [apply (check_git_config_yields env dir p) |].
  intros git_config evs1 (Hevs1 & flag & Hflag).
  eapply yields_bind; [apply (yields_getitem _ _ _ Hflag) |].
  intros is_configured nil1 [-> ->]. cbn [truthy].
  destruct flag; cbn [negb].
  2:{ apply yields_ret. rewrite !app_nil_r.
      apply (handled_failure _ _ _ _ _ _ 1); [reflexivity |].
      apply (Forall_bounded_mono 0); [lia | assumption]. }
  subst p. destruct (url_given repo_url) as [url |]; cbn [option_map].
  - eapply yields_bind; [apply (clone_repository_yields env url dir) |].
    intros clone_result evs2 (Hevs2 & flag2 & Hflag2 & Hpath).
    eapply yields_bind; [apply (yields_getitem _ _ _ Hflag2) |].
    intros clone_ok nil2 [-> ->]. cbn [truthy].
    assert (Hpre : Forall
                     (bounded 2 dir
                        (PyStr.path_join dir (derive_repo_name url)))
                     (evs1 ++ evs2)).
    { apply Forall_app. split; [| exact Hevs2].
      apply (Forall_bounded_mono 0); [lia | assumption]. }
    destruct flag2; cbn [negb].
    2:{ apply yields_ret. cbn [app]. rewrite !app_nil_r.
        now apply (handled_failure _ _ _ _ _ _ 2). }
    eapply yields_bind; [apply (yields_getitem _ _ _ (Hpath eq_refl)) |].
    intros cloned_path nil3 [-> ->]. cbn [as_path].
    eapply yields_bind;
      [apply (yields_ret (fun evs a =>
                            evs = []
                            /\ a = PyStr.path_join dir (derive_repo_name url)));
       now split |].
    intros repo_path' nil4 [-> ->].
    eapply yields_weaken; [apply (stage_commit_push_handled dir) |].
    intros evs3 response [Hok Hrank]. cbn [app]. rewrite app_assoc.
    apply (handled_prefix _ _ _ _ _ _ 2); [exact Hpre | lia | exact Hok].
  - eapply yields_weaken; [apply (stage_commit_push_handled dir) |].
    intros evs3 response [Hok Hrank]. cbn [app].
    apply (handled_prefix _ _ _ _ _ _ 0); [exact Hevs1 | lia | exact Hok].
Qed.

(** X10. Whatever the request and whatever the collaborators do, the
    handler only ever enters [clone_directory] (the current directory when
    the request gives none) and the repository path, the derived name
    joined to [clone_directory], and the only directory it creates is
    [clone_directory]. *)
Theorem github_push_stays_inside request st :
  exists st' response evs,
    github_push env request st = (st', inr response)
    /\ trace st' = trace st ++ evs
    /\ Forall
         (stays_inside
            (get_default (req_clone_directory request)
               (fs_getcwd env (world st)))
            (handler_repo_path request (fs_getcwd env (world st))))
         evs.
Proof.
  destruct (github_push_handled request st)
    as (st' & response & evs & Hrun & Htrace & _ & _ & Hevs & _).
  exists st', response, evs.
  split; [exact Hrun | split; [exact Htrace |]].
  eapply Forall_impl; [| exact Hevs]. now intros ev [_ Hin].
Qed.

(** X12. The handler stops at the first step that fails: it runs no
    command of a step later than the one its response reports.  After
    ["Failed to stage changes"] no commit and no push was run, after
    ["Failed to clone repository"] nothing was added either, and after a
    failed configuration check no directory was created and nothing was
    pulled or cloned. *)
Theorem github_push_stops_at_failure request st :
  exists st' response evs,
    github_push env request st = (st', inr response)
    /\ trace st' = trace st ++ evs
    /\ Forall (fun ev => (step_rank ev <= response_rank response)%nat) evs.
Proof.
  destruct (github_push_handled request st)
    as (st' & response & evs & Hrun & Htrace & _ & _ & Hevs & _).
  exists st', response, evs.
  split; [exact Hrun | split; [exact Htrace |]].
  eapply Forall_impl; [| exact Hevs]. now intros ev [Hrank _].
Qed.

(** X13. A 200 response is given only after a push: the last two calls
    the handler made are [os.chdir] into the repository path and
    [git push origin branch], with [main] as the branch when the request
    names none. *)
Theorem github_push_200_after_push request st :
  exists st' response evs,
    github_push env request st = (st', inr response)
    /\ trace st' = trace st ++ evs
    /\ (status response = 200 ->
        exists evs0,
          evs = evs0
                ++ [EvChdir (handler_repo_path request
                               (fs_getcwd env (world st)));
                    EvExecute
                      (push_command
                         (get_default (req_branch_name request) "main"))]).
Proof.
  destruct (github_push_handled request st)
    as (st' & response & evs & Hrun & Htrace & _ & _ & _ & Hpush).
  now exists st', response, evs.
Qed.

(** An empty [repo_url] is handled like a missing one: no clone step,
    [clone_directory] as the repository path, ["repository"] in the
    message and ["Skipped"] in the report. *)
Remark github_push_empty_url clone_directory commit_message branch_name
  specific_files st :
  github_push env
    (mkRequest (Some "") clone_directory commit_message branch_name
       specific_files) st
  = github_push env
      (mkRequest None clone_directory commit_message branch_name
         specific_files) st.
Proof. reflexivity. Qed.

End WholeHandler.

(* ================================================================== *)
(** ** Interruptions: the two models agree *)
(* ================================================================== *)

Section Agreement.

Context {World : Type} (env : Env World).

Lemma agrees_ret {A : Type} (a : A) :
  agrees (World := World) (ret a) (Async.ret a).
Proof. intros st. reflexivity. Qed.

Lemma agrees_raise {A : Type} (e : Exn) :
  agrees (World := World) (A := A) (raise e) (Async.raise e).
Proof. intros st. reflexivity. Qed.

Lemma agrees_bind {A B : Type} (m : M World A) (m' : Async.M World A)
  (k : A -> M World B) (k' : A -> Async.M World B) :
  agrees m m' -> (forall a, agrees (k a) (k' a)) ->
  agrees (bind m k) (Async.bind m' k').
Proof.
  intros Hm Hk st. unfold bind, Async.bind. rewrite (Hm st).
  destruct (m st) as [st1 [e | a]]; cbn [fst snd lift_result].
  - reflexivity.
  - apply Hk.
Qed.

Lemma agrees_try {A : Type} (m : M World A) (m' : Async.M World A)
  (h : Exn -> M World A) (h' : Exn -> Async.M World A) :
  agrees m m' -> (forall e, agrees (h e) (h' e)) ->
  agrees (try_except m h) (Async.try_except m' h').
Proof.
  intros Hm Hh st. unfold try_except, Async.try_except. rewrite (Hm st).
  destruct (m st) as [st1 [e | a]]; cbn [fst snd lift_result].
  - apply Hh.
  - reflexivity.
Qed.

Lemma agrees_getitem k d :
  agrees (World := World) (getitem k d) (Async.getitem k d).
Proof.
  unfold getitem, Async.getitem.
  destruct (lookup k d); [apply agrees_ret | apply agrees_raise].
Qed.

Lemma agrees_as_path v :
  agrees (World := World) (as_path v) (Async.as_path v).
Proof.
  destruct v; first [apply agrees_ret | apply agrees_raise].
Qed.

Lemma agrees_execute cmd :
  agrees (terminal_execute env cmd) (Async.terminal_execute (lift_env env) cmd).
Proof.
  intros st. unfold terminal_execute, Async.terminal_execute.
  cbn [lift_env Async.run_command].
  now destruct (run_command env cmd (world st)) as [w r].
Qed.

Lemma agrees_chdir path :
  agrees (os_chdir env path) (Async.os_chdir (lift_env env) path).
Proof.
  intros st. unfold os_chdir, Async.os_chdir.
  cbn [lift_env Async.fs_chdir].
  now destruct (fs_chdir env path (world st)) as [w r].
Qed.

Lemma agrees_makedirs path :
  agrees (os_makedirs env path) (Async.os_makedirs (lift_env env) path).
Proof.
  intros st. unfold os_makedirs, Async.os_makedirs.
  cbn [lift_env Async.fs_makedirs].
  now destruct (fs_makedirs env path (world st)) as [w r].
Qed.

Lemma agrees_path_exists path :
  agrees (os_path_exists env path) (Async.os_path_exists (lift_env env) path).
Proof. intros st. reflexivity. Qed.

Lemma agrees_getcwd :
  agrees (os_getcwd env) (Async.os_getcwd (lift_env env)).
Proof. intros st. reflexivity. Qed.

Lemma agrees_add_each files results :
  agrees (add_each env files results)
         (Async.add_each (lift_env env) files results).
Proof.
  revert results. induction files as [| file files IH]; intros results.
  - apply agrees_ret.
  - cbn [add_each Async.add_each].
    apply agrees_bind; [apply agrees_execute | intros result; apply IH].
Qed.

End Agreement.

(** One step of the comparison of two programs of the same text. *)
Ltac agree :=
  repeat first
    [ apply agrees_ret
    | apply agrees_raise
    | apply agrees_getitem
    | apply agrees_as_path
    | apply agrees_execute
    | apply agrees_chdir
    | apply agrees_makedirs
    | apply agrees_path_exists
    | apply agrees_getcwd
    | apply agrees_add_each
    | apply agrees_bind; [| intros ?]
    | apply agrees_try; [| intros ?]
    | match goal with
      | |- agrees (if ?b then _ else _) _ => destruct b
      | |- agrees (match ?x with _ => _ end) _ => destruct x
      end ].

Section StepsAgree.

Context {World : Type} (env : Env World).

Lemma check_git_config_agrees :
  agrees (check_git_config env) (Async.check_git_config (lift_env env)).
Proof.
  unfold check_git_config, Async.check_git_config,
    check_git_config_body, Async.check_git_config_body.
  agree.
Qed.

Lemma clone_repository_agrees repo_url directory :
  agrees (clone_repository env repo_url directory)
         (Async.clone_repository (lift_env env) repo_url directory).
Proof.
  unfold clone_repository, Async.clone_repository,
    clone_repository_body, Async.clone_repository_body,
    ensure_directory, Async.ensure_directory.
  cbv zeta. agree.
Qed.

Lemma stage_changes_agrees repo_path specific_files :
  agrees (stage_changes env repo_path specific_files)
         (Async.stage_changes (lift_env env) repo_path specific_files).
Proof.
  unfold stage_changes, Async.stage_changes,
    stage_changes_body, Async.stage_changes_body.
  destruct specific_files as [[| f fs] |]; agree.
Qed.

Lemma commit_changes_agrees repo_path commit_message :
  agrees (commit_changes env repo_path commit_message)
         (Async.commit_changes (lift_env env) repo_path commit_message).
Proof.
  unfold commit_changes, Async.commit_changes,
    commit_changes_body, Async.commit_changes_body.
  agree.
Qed.

Lemma push_changes_agrees repo_path branch_name :
  agrees (push_changes env repo_path branch_name)
         (Async.push_changes (lift_env env) repo_path branch_name).
Proof.
  unfold push_changes, Async.push_changes,
    push_changes_body, Async.push_changes_body.
  agree.
Qed.

Lemma stage_commit_push_agrees repo_url commit_message branch_name
  specific_files git_config clone repo_path :
  agrees (stage_commit_push env repo_url commit_message branch_name
            specific_files git_config clone repo_path)
         (Async.stage_commit_push (lift_env env) repo_url commit_message
            branch_name specific_files git_config clone repo_path).
Proof.
  unfold stage_commit_push, Async.stage_commit_push.
  repeat first
    [ apply stage_changes_agrees
    | apply commit_changes_agrees
    | apply push_changes_agrees
    | progress agree ].
Qed.

(** On a machine where nothing interrupts and [os.getcwd()] returns, the
    handler written with interruptions does what the handler written
    without them does: the same calls in the same order, the same world,
    and the same response or the same escaped exception. *)
Theorem github_push_agrees request :
  agrees (github_push env request) (Async.github_push (lift_env env) request).
Proof.
  unfold github_push, Async.github_push, github_push_body,
    Async.github_push_body.
  cbv zeta.
  repeat first
    [ apply check_git_config_agrees
    | apply clone_repository_agrees
    | apply stage_commit_push_agrees
    | progress agree ].
Qed.

End StepsAgree.

(* ================================================================== *)
(** ** Interruptions: what the handler answers *)
(* ================================================================== *)

Section NoEscape.

Context {World : Type} (env : Async.Env World).

Lemma attempts_ret {A : Type} (Q : A -> Prop) (a : A) :
  Q a -> Async.attempts (World := World) Q (Async.ret a).
Proof. intros Ha st a' Heq. now inversion Heq; subst. Qed.

Lemma attempts_bind {A B : Type} (Q : B -> Prop) (m : Async.M World A)
  (k : A -> Async.M World B) :
  (forall a, Async.attempts Q (k a)) -> Async.attempts Q (Async.bind m k).
Proof.
  intros Hk st b. unfold Async.bind.
  destruct (m st) as [st1 [a | e | e]]; cbn [snd].
  - apply Hk.
  - discriminate.
  - discriminate.
Qed.

Lemma bind_returned {A B : Type} (m : Async.M World A)
  (k : A -> Async.M World B) st st' a :
  m st = (st', Async.Returned a) -> Async.bind m k st = k a st'.
Proof. intros H. unfold Async.bind. now rewrite H. Qed.

Lemma settles_ret {A : Type} (Q : A -> Prop) (a : A) :
  Q a -> Async.settles (World := World) Q (Async.ret a).
Proof. intros Ha st. exact Ha. Qed.

Lemma settles_bind {A B : Type} (P : A -> Prop) (Q : B -> Prop)
  (m : Async.M World A) (k : A -> Async.M World B) :
  Async.settles P m -> (forall a, P a -> Async.settles Q (k a)) ->
  Async.settles Q (Async.bind m k).
Proof.
  intros Hm Hk st. specialize (Hm st). unfold Async.bind.
  destruct (m st) as [st1 [a | e | e]]; cbn [snd Async.settled] in *.
  - now apply Hk.
  - contradiction.
  - exact I.
Qed.

(** A [try] whose body lets no [Exception] escape never enters its
    [except] clause. *)
Lemma settles_try_body {A : Type} (Q : A -> Prop) (m : Async.M World A) h :
  Async.settles Q m -> Async.settles Q (Async.try_except m h).
Proof.
  intros Hm st. specialize (Hm st). unfold Async.try_except.
  destruct (m st) as [st1 [a | e | e]]; cbn [snd Async.settled] in *.
  - exact Hm.
  - contradiction.
  - exact I.
Qed.

(** A step: whatever its body raises, a dictionary comes out. *)
Lemma settles_step (Q : dict -> Prop) (body : Async.M World dict)
  (failure : Exn -> dict) :
  Async.attempts Q body -> (forall e, Q (failure e)) ->
  Async.settles Q (Async.try_except body (fun e => Async.ret (failure e))).
Proof.
  intros Hbody Hfailure st. specialize (Hbody st). unfold Async.try_except.
  destruct (body st) as [st1 [d | e | e]]; cbn [snd Async.settled] in *.
  - now apply Hbody.
  - apply Hfailure.
  - exact I.
Qed.

Lemma settles_getitem k d v :
  lookup k d = Some v ->
  Async.settles (World := World) (fun v' => v' = v) (Async.getitem k d).
Proof.
  intros Hlookup. unfold Async.getitem. rewrite Hlookup.
  now apply settles_ret.
Qed.

Lemma check_git_config_settles :
  Async.settles (has_flag "is_configured") (Async.check_git_config env).
Proof.
  apply settles_step; [| intros e; now exists false].
  unfold Async.check_git_config_body.
  apply attempts_bind; intros result.
  destruct (negb (exit_ok result)).
  - apply attempts_ret. now exists false.
  - apply attempts_bind; intros username_result.
    apply attempts_bind; intros email_result.
    apply attempts_ret. now eexists.
Qed.

Lemma clone_repository_settles repo_url directory :
  Async.settles has_path (Async.clone_repository env repo_url directory).
Proof.
  apply settles_step.
  - unfold Async.clone_repository_body. cbv zeta.
    apply attempts_bind; intros _.
    apply attempts_bind; intros repo_exists.
    destruct repo_exists;
      (apply attempts_bind; intros _;
       apply attempts_bind; intros result;
       apply attempts_ret; eexists; split; [reflexivity |];
       intros _; now eexists).
  - intros e. exists false. split; [reflexivity | discriminate].
Qed.

Lemma stage_changes_settles repo_path specific_files :
  Async.settles (has_flag "success")
    (Async.stage_changes env repo_path specific_files).
Proof.
  apply settles_step; [| intros e; now exists false].
  unfold Async.stage_changes_body.
  apply attempts_bind; intros _.
  apply attempts_bind; intros status_before.
  destruct specific_files as [[| f fs] |];
    (apply attempts_bind; intros result; apply attempts_ret; now eexists).
Qed.

Lemma commit_changes_settles repo_path commit_message :
  Async.settles (has_flag "success")
    (Async.commit_changes env repo_path commit_message).
Proof.
  apply settles_step; [| intros e; now exists false].
  unfold Async.commit_changes_body.
  apply attempts_bind; intros _.
  apply attempts_bind; intros status_result.
  destruct (PyStr.contains nothing_marker (stdout status_result)).
  - apply attempts_ret. now exists true.
  - apply attempts_bind; intros result. apply attempts_ret. now eexists.
Qed.

Lemma push_changes_settles repo_path branch_name :
  Async.settles (has_flag "success")
    (Async.push_changes env repo_path branch_name).
Proof.
  apply settles_step; [| intros e; now exists false].
  unfold Async.push_changes_body.
  apply attempts_bind; intros _.
  apply attempts_bind; intros result. apply attempts_ret. now eexists.
Qed.

(** Reading the flag of a step's dictionary and branching on it. *)
Ltac read_flag Hstep :=
  apply (settles_bind _ _ _ _ Hstep);
  let d := fresh "d" in
  let b := fresh "b" in
  let Hb := fresh "Hb" in
  intros d [b Hb];
  apply (settles_bind _ _ _ _ (settles_getitem _ _ _ Hb));
  intros ? ->; cbn [truthy]; destruct b; cbn [negb].

Lemma stage_commit_push_settles repo_url commit_message branch_name
  specific_files git_config clone repo_path :
  Async.settles Async.step_response
    (Async.stage_commit_push env repo_url commit_message branch_name
       specific_files git_config clone repo_path).
Proof.
  unfold Async.stage_commit_push.
  read_flag (stage_changes_settles repo_path specific_files);
    [| apply settles_ret; split; [now right | reflexivity]].
  read_flag (commit_changes_settles repo_path commit_message);
    [| apply settles_ret; split; [now right | reflexivity]].
  read_flag (push_changes_settles repo_path branch_name);
    [| apply settles_ret; split; [now right | reflexivity]].
  apply settles_ret. split; [now left | reflexivity].
Qed.

(** Lines 37-117, entered once [os.getcwd()] has returned [cwd]. *)
Lemma github_push_body_settles request cwd st :
  Async.fs_getcwd env (world st) = Async.Returned cwd ->
  Async.settled Async.step_response
    (snd (Async.github_push_body env request st)).
Proof.
  intros Hcwd. unfold Async.github_push_body. cbv zeta.
  rewrite (bind_returned _ _ st st cwd)
    by (unfold Async.os_getcwd; now rewrite Hcwd).
  clear Hcwd. revert st.
  read_flag check_git_config_settles;
    [| apply settles_ret; split; [now right | reflexivity]].
  destruct (url_given (req_repo_url request)) as [url |];
    [| apply stage_commit_push_settles].
  apply (settles_bind _ _ _ _
           (clone_repository_settles url
              (get_default (req_clone_directory request) cwd))).
  intros clone_result [ok [Hok Hpath]].
  apply (settles_bind _ _ _ _ (settles_getitem _ _ _ Hok)).
  intros ? ->. cbn [truthy]. destruct ok; cbn [negb];
    [| apply settles_ret; split; [now right | reflexivity]].
  destruct (Hpath eq_refl) as [p Hp].
  apply (settles_bind _ _ _ _ (settles_getitem _ _ _ Hp)).
  intros ? ->. cbn [Async.as_path].
  apply (settles_bind (fun p' => p' = p) _ _ _);
    [now apply settles_ret | intros ? ->].
  apply stage_commit_push_settles.
Qed.

End NoEscape.

(* ================================================================== *)
(** ** Interruptions: the configuration check and the status codes *)
(* ================================================================== *)

Section Answers.

Context {World : Type} (env : Async.Env World).

Lemma try_except_settled {A : Type} (Q : A -> Prop) (m : Async.M World A)
  h st :
  Async.settled Q (snd (m st)) ->
  Async.settled Q (snd (Async.try_except m h st)).
Proof.
  unfold Async.try_except.
  destruct (m st) as [st1 [a | e | e]]; cbn [snd Async.settled];
    [trivial | contradiction | trivial].
Qed.

(** [bool(username and email)] for two answers with exit status zero. *)
Lemma truthy_answers name email :
  truthy (py_and (config_value name) (config_value email))
  = Async.answer_set (Async.Returned name)
    && Async.answer_set (Async.Returned email).
Proof.
  unfold Async.answer_set, unset_or_empty, config_value, exit_ok, py_and,
    str_or_none.
  destruct (returncode name =? 0); cbn [negb orb andb truthy];
    [| reflexivity].
  destruct (PyStr.strip (stdout name)) as [| c s];
    cbn [truthy PyStr.nonempty negb andb]; [reflexivity |].
  destruct (returncode email =? 0); cbn [negb orb truthy]; [| reflexivity].
  now destruct (PyStr.strip (stdout email)).
Qed.

(** X3. Unless an exception that is not an instance of [Exception]
    interrupts it, [check_git_config] returns a dictionary whose
    ["is_configured"] entry is true exactly when [git --version] returned
    with exit status zero and both [git config user.name] and
    [git config user.email] returned with exit status zero and an output
    of which [strip] leaves something; an [Exception] raised by one of the
    three commands gives [is_configured = False]. *)
Theorem check_git_config_is_configured st :
  Async.settled
    (fun cfg =>
       lookup "is_configured" cfg
       = Some (VBool (Async.config_verdict env (world st))))
    (snd (Async.check_git_config env st)).
Proof.
  unfold Async.check_git_config, Async.try_except,
    Async.check_git_config_body, Async.bind, Async.terminal_execute,
    Async.config_verdict, Async.ret.
  destruct (Async.run_command env "git --version" (world st))
    as [w1 [version | e | e]];
    cbn [snd Async.settled world trace]; [| reflexivity | exact I].
  destruct (exit_ok version); cbn [negb andb snd Async.settled world trace];
    [| reflexivity].
  destruct (Async.run_command env "git config user.name" w1)
    as [w2 [name | e | e]];
    cbn [snd Async.settled world trace]; [| reflexivity | exact I].
  destruct (Async.run_command env "git config user.email" w2)
    as [w3 [email | e | e]];
    cbn [snd Async.settled world trace].
  - cbn [lookup String.eqb Ascii.eqb Bool.eqb]. now rewrite truthy_answers.
  - cbn [Async.answer_set]. now rewrite andb_false_r.
  - exact I.
Qed.

(** X11. [github_push] answers 500 exactly when [os.getcwd()] on line 34
    raises an [Exception], and then before any step has run.  If
    [os.getcwd()] returns, every run that is not interrupted by an
    exception outside [Exception] ends in a response with status 200 or
    400, whose ["success"] entry is true exactly for 200: an [Exception]
    raised by the terminal or the file system is caught by the step in
    which it occurs and never reaches the [except] clause of the
    handler. *)
Theorem github_push_status_500_only_without_cwd request st :
  match Async.fs_getcwd env (world st) with
  | Async.Raised e =>
      Async.github_push env request st
      = (st, Async.Returned (mkResponse 500 (error_body e)))
  | Async.Interrupted e =>
      Async.github_push env request st = (st, Async.Interrupted e)
  | Async.Returned _ =>
      Async.settled Async.step_response
        (snd (Async.github_push env request st))
  end.
Proof.
  destruct (Async.fs_getcwd env (world st)) as [cwd | e | e] eqn:Hcwd.
  - apply try_except_settled. now apply github_push_body_settles with cwd.
  - unfold Async.github_push, Async.try_except, Async.github_push_body.
    cbv zeta. unfold Async.bind at 1. unfold Async.os_getcwd.
    now rewrite Hcwd.
  - unfold Async.github_push, Async.try_except, Async.github_push_body.
    cbv zeta. unfold Async.bind at 1. unfold Async.os_getcwd.
    now rewrite Hcwd.
Qed.

End Answers.

(** A [user.name] that consists of a no-break space (U+00A0) is blank to
    [strip], so git does not count as configured. *)
Example check_git_config_no_break_space :
  PyStr.strip (String (ascii_of_nat 160) EmptyString +++ Sim.nl) = ""
  /\ exists st' cfg,
       Async.check_git_config (lift_env Sim.env)
         (Sim.start
            (Sim.mkWorld "/work" ["/work"; "/work/app"]
               (Some (String (ascii_of_nat 160) EmptyString))
               (Some "ada@example.com") [] []))
       = (st', Async.Returned cfg)
       /\ lookup "is_configured" cfg = Some (VBool false)
       /\ lookup "username" cfg = Some (VStr "").
Proof.
  split; [reflexivity |].
  do 2 eexists. split; [reflexivity | split; reflexivity].
Qed.

(** X11 on the simulation: the working directory of the server is gone,
    and a request that names its own [clone_directory] is answered 500
    without a single call to git. *)
Lemma github_push_status_500_only_without_cwd_witness :
  Async.github_push Disturbed.no_cwd
    (mkRequest None (Some "/work/app") None None None)
    (Sim.start Sim.edited)
  = (Sim.start Sim.edited,
     Async.Returned
       (mkResponse 500
          [("success", VBool false);
           ("message",
            VStr "An error occurred: [Errno 2] No such file or directory");
           ("error", VStr "[Errno 2] No such file or directory")])).
Proof.
  exact (github_push_status_500_only_without_cwd Disturbed.no_cwd
           (mkRequest None (Some "/work/app") None None None)
           (Sim.start Sim.edited)).
Defined.
